(** * EpicEditor: the view-mode state machine, the document store and the
      event emitter of [src/epiceditor/js/epiceditor.js]

    The development is a shallow embedding of the JavaScript source.  The
    editor instance, the closure variables of [load], the DOM nodes the
    program touches and the browser's [localStorage] are fields of one
    explicit state; every method is a function from states to results, an
    exception being a result of its own.

    Conventions of the embedding.
    - A plain JavaScript object used as a map is a [gmap] of its own
      properties; a read goes through [Object.prototype] as the language
      prescribes ([js_get], [js_lookup]).
    - The text and the markup of a node are kept as the strings assigned
      to [innerText] and [innerHTML]; what the browser gives back when the
      program reads them is the host's ([readText], [readMarkup]). The
      style of a node is what [el.style] declares, over what the style
      sheets give the node ([sheet]); a key of a style object names a
      property as the CSS object model prescribes ([css_property]).
    - [JSON.parse] and [JSON.stringify] are the platform's; a stored item
      is represented by the files object it parses to, and
      [JSON_stringify] drops the properties that JSON cannot carry.
    - Event handlers are host code: the model records which handlers are
      invoked and in which order, not what they do. *)

From Stdlib Require Import ZArith String Ascii DecimalString.
From stdpp Require Import gmap strings list fin_maps functions.

Local Open Scope string_scope.

(** ** Exceptions and results *)

Inductive error : Type :=
| TypeError
| SyntaxError.

Inductive result (A : Type) : Type :=
| Ok (a : A)
| Throw (e : error).

Arguments Ok {A} a.
Arguments Throw {A} e.

(** Sequencing: an exception ends the run. Written [x ← r; k]. *)
#[global] Instance result_bind : MBind result :=
  fun A B (k : A -> result B) (r : result A) =>
    match r with
    | Ok a => k a
    | Throw e => Throw e
    end.


(** ** JavaScript values and plain objects *)

Module JS.

(** The DOM nodes the program holds a reference to. *)
Inductive node : Type :=
| N_element            (* the host container, [self.element] *)
| N_iframeElement      (* [self.iframeElement] *)
| N_document           (* [self.iframe], the chrome document *)
| N_body               (* [self.iframe.body] *)
| N_wrapper            (* the [epiceditor-wrapper] div *)
| N_utilbar            (* the [epiceditor-utilbar] div *)
| N_editorIframe
| N_previewerIframe
| N_editor             (* [self.editor], the editable body *)
| N_previewer          (* [self.previewer], the [epiceditor-preview] div *)
| N_hostBody.          (* [document.body] of the host page *)

#[global] Instance node_eq_dec : EqDecision node.
Proof. solve_decision. Defined.

(** The values that reach the modelled code. [JBuiltin k] is the value of
    [Object.prototype[k]], a function or object of the platform. *)
Inductive jsval : Type :=
| JUndefined
| JNull
| JString (s : string)
| JNode (n : node)
| JBuiltin (k : string).

#[global] Instance jsval_eq_dec : EqDecision jsval.
Proof. solve_decision. Defined.

(** ToBoolean. *)
Definition truthy (v : jsval) : bool :=
  match v with
  | JUndefined | JNull => false
  | JString s => negb (String.eqb s "")
  | JNode _ | JBuiltin _ => true
  end.

(** The property names every plain object inherits from
    [Object.prototype] (ECMAScript, with its Annex B). *)
Definition Object_prototype : list string :=
  [ "constructor"; "toString"; "toLocaleString"; "valueOf";
    "hasOwnProperty"; "isPrototypeOf"; "propertyIsEnumerable";
    "__proto__"; "__defineGetter__"; "__defineSetter__";
    "__lookupGetter__"; "__lookupSetter__" ].

Definition inherited (k : string) : bool :=
  bool_decide (k ∈ Object_prototype).

(** [o[k]] on a plain object whose own properties are [o]. *)
Inductive lookup_result (A : Type) : Type :=
| Own (a : A)
| Inherited (k : string)
| Missing.

Arguments Own {A} a.
Arguments Inherited {A} k.
Arguments Missing {A}.

Definition js_lookup {A : Type} (o : gmap string A) (k : string) : lookup_result A :=
  match o !! k with
  | Some a => Own a
  | None => if inherited k then Inherited k else Missing
  end.

Definition js_get (o : gmap string jsval) (k : string) : jsval :=
  match js_lookup o k with
  | Own v => v
  | Inherited k' => JBuiltin k'
  | Missing => JUndefined
  end.

(** [o[k] = v]. An own property is overwritten. Without one, the inherited
    [__proto__] accessor takes the write: it ignores a value that is not an
    object and creates no own property; with an object it re-parents [o],
    which leaves the own properties as they are. Every other name becomes
    an own property. The names that [o] inherits after it was re-parented
    are not kept: the statements about an object that received a write to
    [__proto__] leave that name aside. *)
Definition js_set {A : Type} (o : gmap string A) (k : string) (v : A) : gmap string A :=
  match o !! k with
  | Some _ => <[k := v]> o
  | None => if String.eqb k "__proto__" then o else <[k := v]> o
  end.

(** [delete o[k]]. *)
Definition js_delete {A : Type} (o : gmap string A) (k : string) : gmap string A :=
  delete k o.

(** [a || b] on an optional string argument: [undefined] and the empty
    string are falsy. *)
Definition or_default (a : option string) (b : string) : string :=
  match a with
  | Some s => if String.eqb s "" then b else s
  | None => b
  end.

(** The [files] object of a stored item, as [JSON.parse] builds it: all
    its properties are own properties. *)
Definition JSON_parse (blob : gmap string string) : gmap string jsval :=
  JString <$> blob.

(** [JSON.stringify] keeps the own properties that hold a string; a
    property whose value is [undefined] or a function is left out. Of the
    values of the model one is an object, [Object.prototype] itself, read
    under the name [__proto__]: the platform writes it as [{}], which a
    stored item of the model, holding texts, does not represent. The
    statements about [rename], the one method that copies a value it read,
    leave the old name [__proto__] aside. *)
Definition serializable (v : jsval) : option string :=
  match v with
  | JString s => Some s
  | _ => None
  end.

Definition JSON_stringify (files : gmap string jsval) : gmap string string :=
  omap serializable files.

End JS.

Export JS.

(** ** The browser and the DOM *)

Module DOM.

(** What the program asks of its host. *)
Record env : Type := {
  hasInnerText : bool;            (* [document.body.innerText] is truthy *)
  nativeFs : bool;                (* [document.body.webkitRequestFullScreen] exists *)
  marked : string -> string;      (* the markdown converter *)
  builtinText : string -> string; (* [String(Object.prototype[k])] *)
  readText : bool -> string -> string;
                                  (* [el.innerText], read after the text was assigned;
                                     the flag tells whether the node is being rendered,
                                     on which the layout of the text depends *)
  readMarkup : string -> string;  (* [el.innerHTML], read after the markup was assigned *)
  innerWidth : Z;                 (* [window.innerWidth] and the like *)
  innerHeight : Z;
  outerWidth : Z;
  outerHeight : Z;
  getTime : Z                     (* [new Date().getTime()] *)
}.

(** The properties of a DOM node that the program reads or writes.
    [innerText] and [innerHTML] hold the content of the node as the
    string whose assignment to the property produces it; the program
    reads them through the browser ([_getText]). [style] holds the
    declarations of [el.style], by dashed property name; [sheet] gives,
    for a property that [el.style] does not declare, the value that the
    style sheets and the defaults of the browser give the node. *)
Record element : Type := {
  className : string;
  innerText : string;
  innerHTML : string;
  value : jsval;
  style : gmap string string;
  sheet : string -> string
}.

Definition set_className (c : string) (e : element) : element :=
  {| className := c; innerText := innerText e; innerHTML := innerHTML e;
     value := value e; style := style e; sheet := sheet e |}.
Definition set_innerText (t : string) (e : element) : element :=
  {| className := className e; innerText := t; innerHTML := innerHTML e;
     value := value e; style := style e; sheet := sheet e |}.
Definition set_innerHTML (h : string) (e : element) : element :=
  {| className := className e; innerText := innerText e; innerHTML := h;
     value := value e; style := style e; sheet := sheet e |}.
Definition set_value (v : jsval) (e : element) : element :=
  {| className := className e; innerText := innerText e; innerHTML := innerHTML e;
     value := v; style := style e; sheet := sheet e |}.
Definition set_style (s : gmap string string) (e : element) : element :=
  {| className := className e; innerText := innerText e; innerHTML := innerHTML e;
     value := value e; style := s; sheet := sheet e |}.

(** A [<link>] node in the head of the previewer document. *)
Record link : Type := {
  link_id : string;
  link_href : string;
  link_name : string
}.

(** Decimal text of a whole number, and of its half as JavaScript prints
    the quotient of a non-negative whole number by two. *)
Definition number_text (z : Z) : string :=
  NilZero.string_of_int (Z.to_int z).

Definition half_text (z : Z) : string :=
  if Z.even z then number_text (z / 2) else number_text (z / 2) +:+ ".5".

Definition newline : ascii := "010"%char.

(** [s.replace(/\n/g, "<br>")] *)
Fixpoint nl_to_br (s : string) : string :=
  match s with
  | EmptyString => EmptyString
  | String c s' =>
      if Ascii.eqb c newline then "<br>" +:+ nl_to_br s'
      else String c (nl_to_br s')
  end.

(** The four characters match [/<br>/i]. *)
Definition is_br (c1 c2 c3 c4 : ascii) : bool :=
  Ascii.eqb c1 "<" && (Ascii.eqb c2 "b" || Ascii.eqb c2 "B")
  && (Ascii.eqb c3 "r" || Ascii.eqb c3 "R") && Ascii.eqb c4 ">".

(** [s.replace(/<br>/gi, "\n")]: leftmost matches, scanned left to right,
    the scan resuming after each match. *)
Fixpoint br_to_nl (s : string) : string :=
  match s with
  | EmptyString => EmptyString
  | String c1 t =>
      match t with
      | String c2 (String c3 (String c4 r)) =>
          if is_br c1 c2 c3 c4 then String newline (br_to_nl r)
          else String c1 (br_to_nl t)
      | _ => String c1 (br_to_nl t)
      end
  end.

(** The text starts with a match of [/<br>/i]. *)
Definition starts_br (s : string) : bool :=
  match s with
  | String c1 (String c2 (String c3 (String c4 _))) => is_br c1 c2 c3 c4
  | _ => false
  end.

(** The text has a match of [/<br>/i]. *)
Fixpoint has_br (s : string) : bool :=
  match s with
  | EmptyString => false
  | String c1 t =>
      match t with
      | String c2 (String c3 (String c4 _)) => is_br c1 c2 c3 c4 || has_br t
      | _ => has_br t
      end
  end.

(** [s.replace(o, n)] with a string pattern: the first occurrence only.
    The replacement texts of the program hold no [$] pattern. *)
Fixpoint replace_first (o n s : string) : string :=
  if String.prefix o s then n +:+ String.substring (String.length o) (String.length s - String.length o) s
  else match s with
       | EmptyString => EmptyString
       | String c s' => String c (replace_first o n s')
       end.

(** Upper-case letters, and the camel-case form of a property name put
    back into its dashed form: [zIndex] is [z-index]. *)
Definition is_upper (c : ascii) : bool :=
  Nat.leb 65 (nat_of_ascii c) && Nat.leb (nat_of_ascii c) 90.

Definition lower (c : ascii) : ascii :=
  if is_upper c then ascii_of_nat (nat_of_ascii c + 32) else c.

Fixpoint has_upper (s : string) : bool :=
  match s with
  | EmptyString => false
  | String c s' => is_upper c || has_upper s'
  end.

Fixpoint dashed (s : string) : string :=
  match s with
  | EmptyString => EmptyString
  | String c s' =>
      if is_upper c then String "-" (String (lower c) (dashed s'))
      else String c (dashed s')
  end.

(** The property that the key [attr] of a style object names, in
    [el.style[attr] = v]: a dashed name names itself, a camel-case name
    its dashed form, [cssFloat] the property [float]. [styleFloat] is the
    name of [float] in old Internet Explorer only: elsewhere it names no
    property, and the assignment leaves the style as it is. *)
Definition css_property (attr : string) : option string :=
  if String.eqb attr "cssFloat" then Some "float"
  else if String.eqb attr "styleFloat" then None
  else Some (dashed attr).

(** [_getStyle(el, styleProp)], on the path of [window.getComputedStyle]:
    [getPropertyValue] knows the dashed names, and gives the blank string
    for a camel-case one. The value of a property is the one [el.style]
    declares, a blank declaration being none, or else the one the style
    sheets give. *)
Definition _getStyle (el : element) (styleProp : string) : string :=
  if has_upper styleProp then ""
  else match style el !! styleProp with
       | Some v => if String.eqb v "" then sheet el styleProp else v
       | None => sheet el styleProp
       end.

(** [context.style[attr] = value] *)
Definition assign_style (context : element) (attr value : string) : element :=
  match css_property attr with
  | Some p => set_style (<[p := value]> (style context)) context
  | None => context
  end.

(** [_applyStyles(context, attrs)]: the keys of [attrs] in the order of
    the object, which is the order in which they were written. *)
Definition _applyStyles (context : element) (attrs : list (string * string)) : element :=
  fold_left (fun el a => assign_style el a.1 a.2) attrs context.

(** [_saveStyleState(el, type, styles)]: the node after the call and the
    returned object. *)
Definition _saveStyleState (el : element) (type : string) (styles : list (string * string))
  : element * list (string * string) :=
  if String.eqb type "save" then
    (_applyStyles el styles, (fun a => (a.1, _getStyle el a.1)) <$> styles)
  else if String.eqb type "apply" then
    (_applyStyles el styles, [])
  else (el, []).

(** The entry of [attrs], the last in its order, whose key names the
    property [p]: the one whose value an [_applyStyles] leaves in [p]. *)
Fixpoint named (attrs : list (string * string)) (p : string) : option (string * string) :=
  match attrs with
  | [] => None
  | a :: attrs' =>
      match named attrs' p with
      | Some b => Some b
      | None => if decide (css_property a.1 = Some p) then Some a else None
      end
  end.

(** [_replaceClass(e, o, n)] *)
Definition _replaceClass (e : element) (o n : string) : element :=
  set_className (replace_first o n (className e)) e.

(** [_getText(el)]: the text or the markup of the node, as the browser
    gives it back; [rendered] tells whether the node is being rendered
    at the time of the call. *)
Definition _getText (E : env) (rendered : bool) (el : element) : string :=
  if hasInnerText E then readText E rendered (innerText el)
  else br_to_nl (readMarkup E (innerHTML el)).

(** ToString of a value, as the [innerText] setter applies it. Of the
    values of the model only strings and platform values reach it. *)
Definition to_text (E : env) (v : jsval) : string :=
  match v with
  | JString c => c
  | JBuiltin k => builtinText E k
  | JUndefined => "undefined"
  | JNull => "null"
  | JNode _ => "[object HTMLElement]"
  end.

(** [_setText(el, content)]. With [innerText] the content is stored as
    its text. On the other path [content.replace] is called: a string has
    its line breaks rewritten, any other value has no such method. *)
Definition _setText (E : env) (el : element) (content : jsval) : result element :=
  if hasInnerText E then Ok (set_innerText (to_text E content) el)
  else
    match content with
    | JString c => Ok (set_innerHTML (nl_to_br c) el)
    | _ => Throw TypeError
    end.

End DOM.

Export DOM.

(** ** The editor instance *)

Module Flags.

(** [self.eeState] *)
Record t : Type := {
  fullscreen : bool;
  preview : bool;
  edit : bool
}.

End Flags.

Module Editor.

(** [this.settings], after the options were merged over the defaults. *)
Record settings : Type := {
  container : string;
  basePath : string;
  localStorageName : string;
  file_name : string;            (* [settings.file.name] *)
  file_defaultContent : string;
  file_autoSave : option Z;      (* [None] is [false] *)
  theme_base : string;
  theme_preview : string;
  theme_editor : string;
  focusOnLoad : bool;
  shortcut_modifier : Z;
  shortcut_fullscreen : Z;
  shortcut_preview : Z;
  shortcut_edit : Z
}.

Definition set_file_name (n : string) (s : settings) : settings :=
  {| container := container s; basePath := basePath s;
     localStorageName := localStorageName s;
     file_name := n; file_defaultContent := file_defaultContent s;
     file_autoSave := file_autoSave s;
     theme_base := theme_base s; theme_preview := theme_preview s;
     theme_editor := theme_editor s; focusOnLoad := focusOnLoad s;
     shortcut_modifier := shortcut_modifier s;
     shortcut_fullscreen := shortcut_fullscreen s;
     shortcut_preview := shortcut_preview s;
     shortcut_edit := shortcut_edit s |}.

(** An event handler is a function of the host, known by its identity. *)
Definition handler : Type := nat.

(** [localStorage]: [None] when the browser has none, else its items. An
    item of the editor is the [files] object its JSON text denotes. The
    storage name is taken not to be the name of a method of the storage
    object. *)
Definition storage : Type := option (gmap string (gmap string string)).

(** A loaded instance together with what it shares with the page: the
    instance properties, the variables [load] closes over, the DOM and
    the storage. [calls] lists the handler invocations made so far, the
    latest last. *)
Record state : Type := {
  this_settings : settings;
  events : gmap string (list handler);
  eeState : Flags.t;
  dom : node -> element;
  previewer_head : list link;
  localStorage : storage;
  _isInEdit : bool;
  _elementStates : gmap string (list (string * string));
  isMod : bool;
  isCtrl : bool;
  live_keyup : nat;
  calls : list (string * handler)
}.

Definition set_settings (x : settings) (st : state) : state :=
  {| this_settings := x; events := events st; eeState := eeState st;
     dom := dom st; previewer_head := previewer_head st;
     localStorage := localStorage st; _isInEdit := _isInEdit st;
     _elementStates := _elementStates st; isMod := isMod st;
     isCtrl := isCtrl st; live_keyup := live_keyup st; calls := calls st |}.
Definition set_events (x : gmap string (list handler)) (st : state) : state :=
  {| this_settings := this_settings st; events := x; eeState := eeState st;
     dom := dom st; previewer_head := previewer_head st;
     localStorage := localStorage st; _isInEdit := _isInEdit st;
     _elementStates := _elementStates st; isMod := isMod st;
     isCtrl := isCtrl st; live_keyup := live_keyup st; calls := calls st |}.
Definition set_eeState (x : Flags.t) (st : state) : state :=
  {| this_settings := this_settings st; events := events st; eeState := x;
     dom := dom st; previewer_head := previewer_head st;
     localStorage := localStorage st; _isInEdit := _isInEdit st;
     _elementStates := _elementStates st; isMod := isMod st;
     isCtrl := isCtrl st; live_keyup := live_keyup st; calls := calls st |}.
Definition set_dom (x : node -> element) (st : state) : state :=
  {| this_settings := this_settings st; events := events st; eeState := eeState st;
     dom := x; previewer_head := previewer_head st;
     localStorage := localStorage st; _isInEdit := _isInEdit st;
     _elementStates := _elementStates st; isMod := isMod st;
     isCtrl := isCtrl st; live_keyup := live_keyup st; calls := calls st |}.
Definition set_previewer_head (x : list link) (st : state) : state :=
  {| this_settings := this_settings st; events := events st; eeState := eeState st;
     dom := dom st; previewer_head := x;
     localStorage := localStorage st; _isInEdit := _isInEdit st;
     _elementStates := _elementStates st; isMod := isMod st;
     isCtrl := isCtrl st; live_keyup := live_keyup st; calls := calls st |}.
Definition set_localStorage (x : storage) (st : state) : state :=
  {| this_settings := this_settings st; events := events st; eeState := eeState st;
     dom := dom st; previewer_head := previewer_head st;
     localStorage := x; _isInEdit := _isInEdit st;
     _elementStates := _elementStates st; isMod := isMod st;
     isCtrl := isCtrl st; live_keyup := live_keyup st; calls := calls st |}.
Definition set_elementStates (x : gmap string (list (string * string))) (st : state) : state :=
  {| this_settings := this_settings st; events := events st; eeState := eeState st;
     dom := dom st; previewer_head := previewer_head st;
     localStorage := localStorage st; _isInEdit := _isInEdit st;
     _elementStates := x; isMod := isMod st;
     isCtrl := isCtrl st; live_keyup := live_keyup st; calls := calls st |}.
Definition set_keys (m c : bool) (st : state) : state :=
  {| this_settings := this_settings st; events := events st; eeState := eeState st;
     dom := dom st; previewer_head := previewer_head st;
     localStorage := localStorage st; _isInEdit := _isInEdit st;
     _elementStates := _elementStates st; isMod := m;
     isCtrl := c; live_keyup := live_keyup st; calls := calls st |}.
Definition set_live_keyup (x : nat) (st : state) : state :=
  {| this_settings := this_settings st; events := events st; eeState := eeState st;
     dom := dom st; previewer_head := previewer_head st;
     localStorage := localStorage st; _isInEdit := _isInEdit st;
     _elementStates := _elementStates st; isMod := isMod st;
     isCtrl := isCtrl st; live_keyup := x; calls := calls st |}.
Definition set_calls (x : list (string * handler)) (st : state) : state :=
  {| this_settings := this_settings st; events := events st; eeState := eeState st;
     dom := dom st; previewer_head := previewer_head st;
     localStorage := localStorage st; _isInEdit := _isInEdit st;
     _elementStates := _elementStates st; isMod := isMod st;
     isCtrl := isCtrl st; live_keyup := live_keyup st; calls := x |}.

(** [node.prop = ...] on one node of the DOM. *)
Definition update_node (n : node) (f : element -> element) (st : state) : state :=
  set_dom (<[n := f (dom st n)]> (dom st)) st.

(** *** Events *)

(** [EpicEditor.prototype.on] *)
Definition on (ev : string) (h : handler) (st : state) : result state :=
  let evs :=
    match js_lookup (events st) ev with
    | Missing => js_set (events st) ev []
    | _ => events st
    end in
  match js_lookup evs ev with
  | Own hs => Ok (set_events (<[ev := (hs ++ [h])%list]> evs) st)
  | _ => Throw TypeError               (* no [push] on what is inherited *)
  end.

(** [EpicEditor.prototype.emit]: [invokeHandler] on each registered
    handler, in order. *)
Definition emit (ev : string) (st : state) : result state :=
  match js_lookup (events st) ev with
  | Missing => Ok st
  | Own hs => Ok (set_calls ((calls st ++ ((fun h => (ev, h)) <$> hs))%list) st)
  | Inherited _ => Throw TypeError     (* no [forEach] on what is inherited *)
  end.

(** [EpicEditor.prototype.removeListener]; [h] is [None] when the handler
    argument is left out. The last statement reads [this._events]: no
    statement of the program assigns that property and no prototype of the
    instance has it, so the read yields [undefined] and the property
    access on it throws before [indexOf] or [splice] run. *)
Definition removeListener (ev : string) (h : option handler) (st : state) : result state :=
  match h with
  | None => Ok (set_events (js_set (events st) ev []) st)
  | Some _ =>
      match js_lookup (events st) ev with
      | Missing => Ok st
      | _ => Throw TypeError           (* [this._events[ev]] *)
      end
  end.

(** *** The document store *)

(** [JSON.parse(localStorage[self.settings.localStorageName])], its
    [files]. Reading an item of an absent storage and parsing [undefined]
    both throw. *)
Definition read_files (st : state) : result (gmap string jsval) :=
  match localStorage st with
  | None => Throw TypeError
  | Some items =>
      match items !! localStorageName (this_settings st) with
      | None => Throw SyntaxError
      | Some blob => Ok (JSON_parse blob)
      end
  end.

(** [localStorage[self.settings.localStorageName] = JSON.stringify(s)] *)
Definition write_files (files : gmap string jsval) (st : state) : result state :=
  match localStorage st with
  | None => Throw TypeError
  | Some items =>
      Ok (set_localStorage
            (Some (<[localStorageName (this_settings st) := JSON_stringify files]> items)) st)
  end.

(** Whether the editable body is being rendered: its frame is not taken
    out of the layout. *)
Definition rendered (st : state) : bool :=
  negb (String.eqb (_getStyle (dom st N_editorIframe) "display") "none").

(** [EpicEditor.prototype.exportHTML] *)
Definition exportHTML (E : env) (st : state) : string :=
  marked E (_getText E (rendered st) (dom st N_editor)).

(** The object literal [available] of [get]. The wrapper is looked up by
    its class [epiceditor-wrapper], which [_replaceClass] leaves in place:
    the lookup finds the node in every state the methods produce. *)
Definition available (st : state) : gmap string jsval :=
  list_to_map
    [ ("document", JNode N_document);
      ("body", JNode N_body);
      ("editor", JNode N_editor);
      ("previewer", JNode N_previewer);
      ("wrapper", JNode N_wrapper) ].

(** [EpicEditor.prototype.get] *)
Definition get (st : state) (name : string) : jsval :=
  if negb (truthy (js_get (available st) name)) then JNull
  else js_get (available st) name.

(** The node a value denotes, for a property access on it. *)
Definition as_node (v : jsval) : result node :=
  match v with
  | JNode n => Ok n
  | _ => Throw TypeError
  end.

(** [EpicEditor.prototype.open]; [name] is [None] when left out. *)
Definition open (E : env) (name : option string) (st : state) : result state :=
  let name := or_default name (file_name (this_settings st)) in
  match localStorage st with
  | None => Ok st
  | Some items =>
      match items !! localStorageName (this_settings st) with
      | None => Ok st
      | Some blob =>
          let fileObj := JSON_parse blob in
          ed ← (if truthy (js_get fileObj name)
                then _setText E (dom st N_editor) (js_get fileObj name)
                else _setText E (dom st N_editor)
                       (JString (file_defaultContent (this_settings st))));
          let st := update_node N_editor (fun _ => ed) st in
          let st := set_settings (set_file_name name (this_settings st)) st in
          let st := update_node N_previewer (set_innerHTML (exportHTML E st)) st in
          emit "open" st
      end
  end.

(** [EpicEditor.prototype.save]; an argument is [None] when left out. *)
Definition save (E : env) (file content : option string) (st : state) : result state :=
  let file := or_default file (file_name (this_settings st)) in
  let content := or_default content (_getText E (rendered st) (dom st N_editor)) in
  s ← read_files st;
  let s := js_set s file (JString content) in
  st ← write_files s st;
  emit "save" st.

(** [EpicEditor.prototype.remove] *)
Definition remove (name : option string) (st : state) : result state :=
  let name := or_default name (file_name (this_settings st)) in
  s ← read_files st;
  let s := js_delete s name in
  st ← write_files s st;
  emit "remove" st.

(** [EpicEditor.prototype.importFile] *)
Definition importFile (E : env) (name content : option string) (st : state) : result state :=
  let content := or_default content "" in
  st ← open E name st;
  ed ← as_node (get st "editor");
  let st := update_node ed (set_value (JString content)) st in
  st ← save E None None st;
  open E name st.

(** [EpicEditor.prototype.rename] *)
Definition rename (E : env) (oldName newName : string) (st : state) : result state :=
  s ← read_files st;
  let s := js_set s newName (js_get s oldName) in
  let s := js_delete s oldName in
  st ← write_files s st;
  open E (Some newName) st.

(** *** View modes *)

(** An optional argument that the callee tests with [typeof]. *)
Inductive arg : Type :=
| ArgUndefined
| ArgBool (b : bool)
| ArgString (s : string).

(** [context.getElementById(id)] among the links of the previewer head. *)
Definition getElementById (id : string) (head : list link) : option link :=
  List.find (fun l => String.eqb (link_id l) id) head.

(** [_insertCSSLink(path, context, id)] on the previewer document. *)
Definition _insertCSSLink (E : env) (path id : string) (head : list link) : list link :=
  (head ++ [ {| link_id := id;
               link_href := path +:+ "?" +:+ number_text (getTime E);
               link_name := path |} ])%list.

(** [context.getElementById(id).href = href] *)
Fixpoint set_href (id href : string) (head : list link) : list link :=
  match head with
  | [] => []
  | l :: head' =>
      if String.eqb (link_id l) id
      then {| link_id := link_id l; link_href := href; link_name := link_name l |} :: head'
      else l :: set_href id href head'
  end.

Definition set_display (v : string) (e : element) : element :=
  set_style (<["display" := v]> (style e)) e.

(** [EpicEditor.prototype.preview] *)
Definition preview (E : env) (theme : arg) (live : bool) (st : state) : result state :=
  let themePath := basePath (this_settings st) +:+ theme_preview (this_settings st) in
  let live := match theme with ArgBool b => b | _ => live end in
  let theme :=
    match theme with
    | ArgBool _ => themePath
    | ArgString t => if String.eqb t "" then themePath else t
    | ArgUndefined => themePath
    end in
  wrapper ← as_node (get st "wrapper");
  let st := update_node wrapper
              (fun e => _replaceClass e "epiceditor-edit-mode" "epiceditor-preview-mode") st in
  let st :=
    match getElementById "theme" (previewer_head st) with
    | None => set_previewer_head (_insertCSSLink E theme "theme" (previewer_head st)) st
    | Some l =>
        if negb (String.eqb (link_name l) theme)
        then set_previewer_head (set_href "theme" theme (previewer_head st)) st
        else st
    end in
  let st := update_node N_previewer (set_innerHTML (exportHTML E st)) st in
  let st :=
    if negb live then
      let st := update_node N_editorIframe (set_display "none") st in
      let st := update_node N_previewerIframe (set_display "block") st in
      set_eeState {| Flags.fullscreen := Flags.fullscreen (eeState st);
                     Flags.preview := true; Flags.edit := false |} st
    else st in
  emit "preview" st.

(** [EpicEditor.prototype.edit] *)
Definition edit (st : state) : result state :=
  wrapper ← as_node (get st "wrapper");
  let st := update_node wrapper
              (fun e => _replaceClass e "epiceditor-preview-mode" "epiceditor-edit-mode") st in
  let st := set_eeState {| Flags.fullscreen := Flags.fullscreen (eeState st);
                           Flags.preview := false; Flags.edit := true |} st in
  let st := update_node N_editorIframe (set_display "block") st in
  let st := update_node N_previewerIframe (set_display "none") st in
  emit "edit" st.

(** [_elementStates.x = _saveStyleState(node, 'save', styles)] *)
Definition save_styles (x : string) (n : node) (styles : list (string * string)) (st : state)
  : state :=
  let '(el, returnState) := _saveStyleState (dom st n) "save" styles in
  set_elementStates (<[x := returnState]> (_elementStates st)) (update_node n (fun _ => el) st).

(** [_saveStyleState(node, 'apply', _elementStates.x)]; a snapshot never
    taken is [undefined], over which the loop of [_applyStyles] does not
    run. *)
Definition apply_styles (x : string) (n : node) (st : state) : state :=
  update_node n
    (fun e => fst (_saveStyleState e "apply" (default [] (_elementStates st !! x)))) st.

Definition px (t : string) : string := t +:+ "px".

(** [_goFullscreen(fsElement)]. The request of native fullscreen is left
    to the browser. *)
Definition _goFullscreen (E : env) (st : state) : result state :=
  let st := set_eeState {| Flags.fullscreen := true; Flags.preview := true;
                           Flags.edit := true |} st in
  let windowInnerHeight := innerHeight E in
  let windowOuterWidth := outerWidth E in
  let windowOuterHeight := if negb (nativeFs E) then innerHeight E else outerHeight E in
  let st := save_styles "editorIframe" N_editorIframe
    [ ("width", px (half_text windowOuterWidth));
      ("height", px (number_text windowOuterHeight));
      ("float", "left"); ("cssFloat", "left"); ("styleFloat", "left");
      ("display", "block") ] st in
  let st := save_styles "previewerIframe" N_previewerIframe
    [ ("width", px (half_text windowOuterWidth));
      ("height", px (number_text windowOuterHeight));
      ("float", "right"); ("cssFloat", "right"); ("styleFloat", "right");
      ("display", "block") ] st in
  let st := save_styles "element" N_element
    [ ("position", "fixed"); ("top", "0"); ("left", "0");
      ("width", "100%"); ("z-index", "9999"); ("zIndex", "9999");
      ("border", "none");
      ("background", _getStyle (dom st N_editor) "background-color");
      ("height", px (number_text windowInnerHeight)) ] st in
  let st := save_styles "iframeElement" N_iframeElement
    [ ("width", px (number_text windowOuterWidth));
      ("height", px (number_text windowInnerHeight)) ] st in
  let st := update_node N_utilbar
              (fun e => set_style (<["visibility" := "hidden"]> (style e)) e) st in
  let st := if negb (nativeFs E)
            then update_node N_hostBody
                   (fun e => set_style (<["overflow" := "hidden"]> (style e)) e) st
            else st in
  st ← preview E (ArgBool true) false st;
  Ok (set_live_keyup (S (live_keyup st)) st).

(** [_exitFullscreen(fsElement)] *)
Definition _exitFullscreen (E : env) (st : state) : state :=
  let st := apply_styles "element" N_element st in
  let st := apply_styles "iframeElement" N_iframeElement st in
  let st := apply_styles "editorIframe" N_editorIframe st in
  let st := apply_styles "previewerIframe" N_previewerIframe st in
  let st := update_node N_utilbar
              (fun e => set_style (<["visibility" := "visible"]> (style e)) e) st in
  let st := if negb (nativeFs E)
            then update_node N_hostBody
                   (fun e => set_style (<["overflow" := "auto"]> (style e)) e) st
            else st in
  let st := set_eeState {| Flags.fullscreen := false;
                           Flags.preview := Flags.preview (eeState st);
                           Flags.edit := Flags.edit (eeState st) |} st in
  if _isInEdit st
  then set_eeState {| Flags.fullscreen := Flags.fullscreen (eeState st);
                      Flags.preview := false;
                      Flags.edit := Flags.edit (eeState st) |} st
  else set_eeState {| Flags.fullscreen := Flags.fullscreen (eeState st);
                      Flags.preview := Flags.preview (eeState st);
                      Flags.edit := false |} st.

(** *** The listeners that [load] installs *)

(** Click on the toggle button. *)
Definition toggle_click (E : env) (st : state) : result state :=
  if Flags.edit (eeState st) then preview E ArgUndefined false st
  else edit st.

(** Click on the fullscreen button. *)
Definition fullscreen_click (E : env) (st : state) : result state :=
  _goFullscreen E st.

(** The [webkitfullscreenchange] listener, installed when the browser has
    native fullscreen; [isFullScreen] is [document.webkitIsFullScreen]. *)
Definition fullscreenchange (E : env) (isFullScreen : bool) (st : state) : state :=
  if nativeFs E then
    if negb isFullScreen then _exitFullscreen E st else st
  else st.

(** [shortcutHandler(e)], the [keydown] listener. *)
Definition shortcutHandler (E : env) (keyCode : Z) (st : state) : result state :=
  let st := if (keyCode =? shortcut_modifier (this_settings st))%Z
            then set_keys true (isCtrl st) st else st in
  let st := if (keyCode =? 17)%Z then set_keys (isMod st) true st else st in
  st ← (if isMod st && (keyCode =? shortcut_preview (this_settings st))%Z
           && negb (Flags.fullscreen (eeState st))
        then preview E ArgUndefined false st else Ok st);
  st ← (if isMod st && (keyCode =? shortcut_edit (this_settings st))%Z
        then if negb (Flags.fullscreen (eeState st)) then edit st else Ok st
        else Ok st);
  st ← (if isMod st && (keyCode =? shortcut_fullscreen (this_settings st))%Z
        then _goFullscreen E st else Ok st);
  let st := if (keyCode =? 27)%Z && Flags.fullscreen (eeState st)
            then if negb (nativeFs E) then _exitFullscreen E st else st
            else st in
  Ok st.

(** [shortcutUpHandler(e)], the [keyup] listener. *)
Definition shortcutUpHandler (keyCode : Z) (st : state) : state :=
  let st := if (keyCode =? shortcut_modifier (this_settings st))%Z
            then set_keys false (isCtrl st) st else st in
  if (keyCode =? 17)%Z then set_keys (isMod st) false st else st.

(** The [keyup] listeners that [_goFullscreen] adds to the editor, one on
    each entry, none ever removed: each runs [self.preview(true)]. *)
Fixpoint live_preview (E : env) (n : nat) (st : state) : result state :=
  match n with
  | O => Ok st
  | S n' => st ← preview E (ArgBool true) false st; live_preview E n' st
  end.

Definition editor_keyup (E : env) (keyCode : Z) (st : state) : result state :=
  st ← live_preview E (live_keyup st) st;
  Ok (shortcutUpHandler keyCode st).

(** The tick of the autosave timer. Its callback runs with the window as
    [this], whose [value] is [undefined]. *)
Definition autosave_tick (E : env) (st : state) : result state :=
  save E (Some (file_name (this_settings st))) None st.

(** *** Construction and loading *)

(** The [options] argument of the constructor; [None] is a property left
    out. *)
Record options : Type := {
  o_container : option string;
  o_basePath : option string;
  o_localStorageName : option string;
  o_file_name : option string;
  o_file_defaultContent : option string;
  o_file_autoSave : option (option Z);
  o_theme_base : option string;
  o_theme_preview : option string;
  o_theme_editor : option string;
  o_focusOnLoad : option bool;
  o_shortcut_modifier : option Z;
  o_shortcut_fullscreen : option Z;
  o_shortcut_preview : option Z;
  o_shortcut_edit : option Z
}.

(** [_mergeObjs(true, defaults, opts)] on the settings: a property of
    [opts] that is not [undefined] overrides the default. *)
Definition merge (opts : options) : settings :=
  {| container := default "epiceditor" (o_container opts);
     basePath := default "epiceditor" (o_basePath opts);
     localStorageName := default "epiceditor" (o_localStorageName opts);
     file_name := default (or_default (o_container opts) "epiceditor") (o_file_name opts);
     file_defaultContent := default "" (o_file_defaultContent opts);
     file_autoSave := default (Some 100%Z) (o_file_autoSave opts);
     theme_base := default "/themes/base/epiceditor.css" (o_theme_base opts);
     theme_preview := default "/themes/preview/github.css" (o_theme_preview opts);
     theme_editor := default "/themes/editor/epic-dark.css" (o_theme_editor opts);
     focusOnLoad := default false (o_focusOnLoad opts);
     shortcut_modifier := default 18%Z (o_shortcut_modifier opts);
     shortcut_fullscreen := default 70%Z (o_shortcut_fullscreen opts);
     shortcut_preview := default 80%Z (o_shortcut_preview opts);
     shortcut_edit := default 79%Z (o_shortcut_edit opts) |}.

(** What the constructor leaves on the new object. *)
Record instance : Type := {
  i_settings : settings;
  i_events : gmap string (list handler);
  i_content : option string
}.

(** [function EpicEditor(options)]: the new object and the storage after
    the call. In the second branch the assignment goes to the object a
    fresh [JSON.parse] returned, which nothing reads afterwards. *)
Definition EpicEditor (opts : options) (ls : storage) : instance * storage :=
  let settings := merge opts in
  let '(content, ls) :=
    match ls with
    | None => (None, ls)
    | Some items =>
        match items !! localStorageName settings with
        | None =>
            let defaultStorage :=
              js_set (∅ : gmap string jsval) (file_name settings)
                     (JString (file_defaultContent settings)) in
            (None, Some (<[localStorageName settings := JSON_stringify defaultStorage]> items))
        | Some blob =>
            if negb (truthy (js_get (JSON_parse blob) (file_name settings)))
            then
              let discarded :=
                js_set (JSON_parse blob) (file_name settings)
                       (JString (file_defaultContent settings)) in
              (None, ls)
            else (Some (file_defaultContent settings), ls)
        end
    end in
  ({| i_settings := settings; i_events := ∅; i_content := content |}, ls).

(** [EpicEditor.prototype.load]. [page] gives every node as the browser
    creates it from the templates, with what the style sheets give it. The model keeps what the methods above read: the mode
    flags, the class of the wrapper, the texts, the display of the frames,
    the links of the previewer head, the closure variables. The sizing of
    the frames from the measures of the container and the call of the
    [callback] argument are left out. *)
Definition load (E : env) (page : node -> element) (i : instance) (ls : storage)
  : result state :=
  let st :=
    {| this_settings := i_settings i;
       events := i_events i;
       eeState := {| Flags.fullscreen := false; Flags.preview := false;
                     Flags.edit := true |};
       dom := page;
       previewer_head := [];
       localStorage := ls;
       _isInEdit := true;
       _elementStates := ∅;
       isMod := false;
       isCtrl := false;
       live_keyup := 0;
       calls := [] |} in
  let st := update_node N_wrapper
              (set_className "epiceditor-wrapper epiceditor-edit-mode") st in
  let st := update_node N_editor (fun e => set_innerText "" (set_innerHTML "" e)) st in
  let st := update_node N_previewer (set_innerHTML "") st in
  let st := set_previewer_head
              (_insertCSSLink E (basePath (this_settings st) +:+ theme_preview (this_settings st))
                              "" (previewer_head st)) st in
  let st := update_node N_wrapper
              (fun e => set_style (<["position" := "relative"]> (style e)) e) st in
  let st := update_node N_previewerIframe (set_display "none") st in
  let st := set_previewer_head
              (_insertCSSLink E (basePath (this_settings st) +:+ theme_preview (this_settings st))
                              "theme" (previewer_head st)) st in
  st ← open E (Some (file_name (this_settings st))) st;
  (* _isInEdit = self.eeState.edit *)
  let st :=
    {| this_settings := this_settings st; events := events st; eeState := eeState st;
       dom := dom st; previewer_head := previewer_head st;
       localStorage := localStorage st; _isInEdit := Flags.edit (eeState st);
       _elementStates := ∅; isMod := isMod st;
       isCtrl := isCtrl st; live_keyup := live_keyup st; calls := calls st |} in
  let st := update_node N_utilbar (set_display "none") st in
  emit "load" st.

(** *** Observations and runs *)

(** What an observer reads off a run that returned. *)
Definition observe {A : Type} (f : state -> A) (r : result state) : option A :=
  match r with
  | Ok st => Some (f st)
  | Throw _ => None
  end.

Definition editor_text (E : env) (st : state) : string :=
  _getText E (rendered st) (dom st N_editor).

(** The files stored under the name [ns], and the file [n] among them. *)
Definition storage_files (ls : storage) (ns : string) : option (gmap string string) :=
  match ls with
  | Some items => items !! ns
  | None => None
  end.

Definition storage_file (ls : storage) (ns n : string) : option string :=
  match storage_files ls ns with
  | Some blob => blob !! n
  | None => None
  end.

(** The files stored under the storage name of the instance. *)
Definition stored (st : state) : option (gmap string string) :=
  storage_files (localStorage st) (localStorageName (this_settings st)).

Definition stored_file (n : string) (st : state) : option string :=
  storage_file (localStorage st) (localStorageName (this_settings st)) n.

Definition display (n : node) (st : state) : option string :=
  style (dom st n) !! "display".

(** The four transitions of the view-mode machine. *)
Inductive transition : Type :=
| T_preview            (* [preview()], not live *)
| T_edit               (* [edit()] *)
| T_enterFullscreen    (* [_goFullscreen(fsElement)] *)
| T_exitFullscreen.    (* [_exitFullscreen(fsElement)] *)

Definition step (E : env) (t : transition) (st : state) : result state :=
  match t with
  | T_preview => preview E ArgUndefined false st
  | T_edit => edit st
  | T_enterFullscreen => _goFullscreen E st
  | T_exitFullscreen => Ok (_exitFullscreen E st)
  end.

Fixpoint run (E : env) (ts : list transition) (st : state) : result state :=
  match ts with
  | [] => Ok st
  | t :: ts' => st ← step E t st; run E ts' st
  end.

(** The gate that [shortcutHandler] puts before each transition: preview
    and edit only outside fullscreen, the exit only in fullscreen. *)
Definition gate (t : transition) (st : state) : bool :=
  match t with
  | T_preview | T_edit => negb (Flags.fullscreen (eeState st))
  | T_enterFullscreen => true
  | T_exitFullscreen => Flags.fullscreen (eeState st)
  end.

(** A run in which every transition passes its gate. *)
Fixpoint gated (E : env) (ts : list transition) (st : state) : bool :=
  match ts with
  | [] => true
  | t :: ts' =>
      gate t st &&
      match step E t st with
      | Ok st' => gated E ts' st'
      | Throw _ => true
      end
  end.

(** The invariant of the mode flags: one simple mode outside fullscreen,
    both in fullscreen. *)
Definition flags_ok (f : Flags.t) : bool :=
  if Flags.fullscreen f then Flags.edit f && Flags.preview f
  else xorb (Flags.edit f) (Flags.preview f).



(** What the transitions maintain in a loaded instance. *)
Definition good (st : state) : Prop :=
  _isInEdit st = true /\ flags_ok (eeState st) = true.

End Editor.

(** ** The chrome: pointer, window and removal *)

Module Chrome.
Import Editor.

(** The variables of [load] that the pointer listener closes over,
    [mousePos] and [utilBarTimer], and the timeouts the window holds for
    it. A timer handle is a positive number, so a handle once stored is
    truthy; [next_handle] is the last handle the window gave out. *)
Record pointer : Type := {
  mousePos_y : Z;
  mousePos_x : Z;
  utilBarTimer : option nat;
  timers : list nat;
  next_handle : nat
}.

(** The variables as [load] declares them. *)
Definition pointer_init : pointer :=
  {| mousePos_y := -1; mousePos_x := -1; utilBarTimer := None;
     timers := []; next_handle := 0 |}.

(** [clearTimeout(id)] *)
Definition clearTimeout (id : nat) (ts : list nat) : list nat :=
  List.filter (fun t => negb (Nat.eqb t id)) ts.

(** [utilBarHandler(e)], the [mousemove] listener of both frames; [pageX]
    and [pageY] are the coordinates of the event. *)
Definition utilBarHandler (pageX pageY : Z) (ps : pointer * state) : pointer * state :=
  let '(p, st) := ps in
  let '(p, st) :=
    if (5 <=? Z.abs (mousePos_y p - pageY))%Z || (5 <=? Z.abs (mousePos_x p - pageX))%Z
    then
      let st := update_node N_utilbar (set_display "block") st in
      let ts := match utilBarTimer p with
                | Some id => clearTimeout id (timers p)
                | None => timers p
                end in
      let id := S (next_handle p) in
      ({| mousePos_y := mousePos_y p; mousePos_x := mousePos_x p;
          utilBarTimer := Some id; timers := (ts ++ [id])%list;
          next_handle := id |}, st)
    else (p, st) in
  ({| mousePos_y := pageY; mousePos_x := pageX;
      utilBarTimer := utilBarTimer p; timers := timers p;
      next_handle := next_handle p |}, st).

(** The timeout [id] fires: the window drops it and runs the callback,
    which hides the bar. A handle that is not pending fires nothing. *)
Definition timeout (id : nat) (ps : pointer * state) : pointer * state :=
  let '(p, st) := ps in
  if existsb (Nat.eqb id) (timers p) then
    ({| mousePos_y := mousePos_y p; mousePos_x := mousePos_x p;
        utilBarTimer := utilBarTimer p; timers := clearTimeout id (timers p);
        next_handle := next_handle p |},
     update_node N_utilbar (set_display "none") st)
  else ps.

(** What the pointer listener and its timer react to. *)
Inductive pointer_event : Type :=
| Move (pageX pageY : Z)
| Fire (id : nat).

Definition pointer_step (e : pointer_event) (ps : pointer * state) : pointer * state :=
  match e with
  | Move x y => utilBarHandler x y ps
  | Fire id => timeout id ps
  end.

Definition pointer_run (es : list pointer_event) (ps : pointer * state) : pointer * state :=
  fold_left (fun ps e => pointer_step e ps) es ps.

(** Every move stays within less than five pixels, in both axes, of the
    position recorded before it. *)
Fixpoint slow (y x : Z) (moves : list (Z * Z)) : bool :=
  match moves with
  | [] => true
  | (x', y') :: moves' =>
      (Z.abs (y - y') <? 5)%Z && (Z.abs (x - x') <? 5)%Z && slow y' x' moves'
  end.

(** The bar is shown only while a timeout to hide it is pending, and at
    most one timeout is pending: the one [utilBarTimer] names. *)
Definition bar_ok (ps : pointer * state) : bool :=
  match timers ps.1 with
  | [] => negb (String.eqb (_getStyle (dom ps.2 N_utilbar) "display") "block")
  | [id] => match utilBarTimer ps.1 with
            | Some id' => Nat.eqb id id'
            | None => false
            end
  | _ => false
  end.

(** The style objects that [_goFullscreen] hands to [_saveStyleState],
    by the node they are for. *)
Definition frame_styles (E : env) (side : string) : list (string * string) :=
  [ ("width", px (half_text (outerWidth E)));
    ("height", px (number_text (if negb (nativeFs E) then innerHeight E
                                else outerHeight E)));
    ("float", side); ("cssFloat", side); ("styleFloat", side);
    ("display", "block") ].

Definition element_styles (E : env) (background : string) : list (string * string) :=
  [ ("position", "fixed"); ("top", "0"); ("left", "0"); ("width", "100%");
    ("z-index", "9999"); ("zIndex", "9999"); ("border", "none");
    ("background", background);
    ("height", px (number_text (innerHeight E))) ].

Definition iframeElement_styles (E : env) : list (string * string) :=
  [ ("width", px (number_text (outerWidth E)));
    ("height", px (number_text (innerHeight E))) ].

(** The [resize] listener of the window; [documentFs] tells whether the
    chrome document has a [webkitRequestFullScreen] property. *)
Definition resize (E : env) (documentFs : bool) (st : state) : state :=
  if negb documentFs && Flags.fullscreen (eeState st) then
    let st := update_node N_iframeElement
                (fun e => _applyStyles e
                   [ ("width", px (number_text (outerWidth E)));
                     ("height", px (number_text (innerHeight E))) ]) st in
    let st := update_node N_element
                (fun e => _applyStyles e
                   [ ("height", px (number_text (innerHeight E))) ]) st in
    let st := update_node N_previewerIframe
                (fun e => _applyStyles e
                   [ ("width", px (half_text (outerWidth E)));
                     ("height", px (number_text (innerHeight E))) ]) st in
    update_node N_editorIframe
      (fun e => _applyStyles e
         [ ("width", px (half_text (outerWidth E)));
           ("height", px (number_text (innerHeight E))) ]) st
  else st.



(** The handler invocations that one rendering of the preview adds. *)
Definition preview_calls (st : state) : list (string * handler) :=
  (fun h => ("preview", h)) <$> default [] (events st !! "preview").

(** Two states that differ at most in the [value] property of their
    nodes: the same settings, handlers, flags, storage, keys and
    invocations, and in every node the same class, texts and styles. *)
Definition same_but_value (st st' : state) : Prop :=
  this_settings st = this_settings st' /\
  events st = events st' /\
  eeState st = eeState st' /\
  (forall n, set_value JUndefined (dom st n) = set_value JUndefined (dom st' n)) /\
  previewer_head st = previewer_head st' /\
  localStorage st = localStorage st' /\
  _isInEdit st = _isInEdit st' /\
  _elementStates st = _elementStates st' /\
  isMod st = isMod st' /\
  isCtrl st = isCtrl st' /\
  live_keyup st = live_keyup st' /\
  calls st = calls st'.

(** Two calls that throw the same error, or return states that differ at
    most in the [value] property of their nodes. *)
Definition same_result (r r' : result state) : Prop :=
  match r, r' with
  | Ok st, Ok st' => same_but_value st st'
  | Throw e, Throw e' => e = e'
  | _, _ => False
  end.

End Chrome.

(** ** A concrete page

    A browser with [innerText] and without native fullscreen, a blank
    page, an empty storage, and the editor built with the file name [a]
    and the default content [hello]. Of what a browser does to a text it
    is given, the sample keeps two rewritings: runs of blanks read as one
    blank through the [innerText] of a rendered node, a bare ampersand
    reads as its entity through [innerHTML]. *)

Module Sample.
Import Editor.

(** A run of blanks reads as one blank, as the browser lays the text of
    a rendered node out. *)
Fixpoint collapse (s : string) : string :=
  match s with
  | EmptyString => EmptyString
  | String c t =>
      match t with
      | String c' _ =>
          if Ascii.eqb c " " && Ascii.eqb c' " " then collapse t
          else String c (collapse t)
      | EmptyString => String c EmptyString
      end
  end.

(** An ampersand that starts no entity reads as the entity [&amp;], as
    the browser writes a text node out. *)
Fixpoint escape_amp (s : string) : string :=
  match s with
  | EmptyString => EmptyString
  | String c t =>
      if Ascii.eqb c "&" && negb (String.prefix "amp;" t)
      then "&amp;" +:+ escape_amp t
      else String c (escape_amp t)
  end.

Definition browser : env :=
  {| hasInnerText := true;
     nativeFs := false;
     marked := fun s => "<p>" +:+ s +:+ "</p>";
     builtinText := fun k =>
       if String.eqb k "__proto__" then "[object Object]"
       else "function " +:+ (if String.eqb k "constructor" then "Object" else k)
            +:+ "() { [native code] }";
     readText := fun rendered s => if rendered then collapse s else s;
     readMarkup := escape_amp;
     innerWidth := 1280; innerHeight := 720;
     outerWidth := 1280; outerHeight := 800;
     getTime := 1351728000000 |}.

(** The same browser without [innerText]. *)
Definition old_browser : env :=
  {| hasInnerText := false;
     nativeFs := nativeFs browser;
     marked := marked browser;
     builtinText := builtinText browser;
     readText := readText browser;
     readMarkup := readMarkup browser;
     innerWidth := innerWidth browser; innerHeight := innerHeight browser;
     outerWidth := outerWidth browser; outerHeight := outerHeight browser;
     getTime := getTime browser |}.

(** A node without text and without declarations of its own, in a page
    whose style sheets leave every property at its initial value. *)
Definition blank : element :=
  {| className := ""; innerText := ""; innerHTML := "";
     value := JUndefined; style := ∅;
     sheet := fun p =>
       if String.eqb p "z-index" then "auto"
       else if String.eqb p "float" then "none"
       else if String.eqb p "position" then "static"
       else if String.eqb p "display" then "block"
       else if String.eqb p "width" then "auto"
       else if String.eqb p "height" then "auto"
       else "" |}.

Definition page : node -> element := fun _ => blank.

Definition opts : options :=
  {| o_container := None; o_basePath := None; o_localStorageName := None;
     o_file_name := Some "a"; o_file_defaultContent := Some "hello";
     o_file_autoSave := None;
     o_theme_base := None; o_theme_preview := None; o_theme_editor := None;
     o_focusOnLoad := None;
     o_shortcut_modifier := None; o_shortcut_fullscreen := None;
     o_shortcut_preview := None; o_shortcut_edit := None |}.

(** [new EpicEditor(opts).load()] against the storage [ls]. *)
Definition boot_with (E : env) (ls : storage) : result state :=
  let '(i, ls) := EpicEditor opts ls in load E page i ls.

Definition boot : result state := boot_with browser (Some ∅).

End Sample.

(** * Properties *)

Import Editor Sample.

(** ** Runs on the concrete page *)

(** The page loads, in edit mode, with the default content stored and
    shown. *)
Example boot_loaded :
  observe (fun st => (eeState st, _isInEdit st, editor_text browser st,
                      stored_file "a" st, file_name (this_settings st))) boot
  = Some ({| Flags.fullscreen := false; Flags.preview := false; Flags.edit := true |},
          true, "hello", Some "hello", "a").
Proof. vm_compute. reflexivity. Qed.

(** C2, at the failing input: the instance is put in preview mode, enters
    fullscreen and leaves it. [_isInEdit] was read once, when [load] ran
    in edit mode, so the exit clears [preview] and the flags come back as
    edit mode, while the frames are restored to the preview layout. *)
Theorem exitFullscreen_forgets_preview :
  observe (fun st => (eeState st, display N_editorIframe st, display N_previewerIframe st))
    (st ← boot;
     st ← preview browser ArgUndefined false st;
     st ← _goFullscreen browser st;
     Ok (_exitFullscreen browser st))
  = Some ({| Flags.fullscreen := false; Flags.preview := false; Flags.edit := true |},
          Some "none", Some "block").
Proof. vm_compute. reflexivity. Qed.

(** C4, at the failing input: [importFile("a", "X")] against a store that
    holds [hello] under [a]. The content goes to the [value] property of
    the editor body, which nothing reads; the store and both surfaces keep
    [hello], where [save("a", "X")] followed by [open("a")] puts [X]
    there. *)
Theorem importFile_drops_content :
  observe (fun st => (stored_file "a" st, editor_text browser st,
                      innerHTML (dom st N_previewer), value (dom st N_editor)))
    (st ← boot; importFile browser (Some "a") (Some "X") st)
  = Some (Some "hello", "hello", "<p>hello</p>", JString "X")
  /\
  observe (fun st => (stored_file "a" st, editor_text browser st,
                      innerHTML (dom st N_previewer), value (dom st N_editor)))
    (st ← boot; st ← save browser (Some "a") (Some "X") st; open browser (Some "a") st)
  = Some (Some "X", "X", "<p>X</p>", JUndefined).
Proof. split; vm_compute; reflexivity. Qed.

(** C6, at the failing input: two handlers are registered for [save] and
    the first is removed. The method reads [this._events], which is
    [undefined]: it throws, and both handlers stay registered. *)
Theorem removeListener_handler_throws :
  observe (fun st => events st !! "save")
    (st ← boot; st ← on "save" 1 st; on "save" 2 st)
  = Some (Some [1; 2])
  /\
  (st ← boot; st ← on "save" 1 st; st ← on "save" 2 st;
   removeListener "save" (Some 1) st)
  = Throw TypeError.
Proof. split; vm_compute; reflexivity. Qed.

(** C8, at the failing input: the name [constructor] has no entry, is
    removed and opened. The lookup [fileObj[name]] finds the function
    inherited from [Object.prototype]; its text lands in the editable
    surface where the default content [hello] is due, and without
    [innerText] the call throws. *)
Theorem open_inherited_name :
  observe (fun st => (stored_file "constructor" st, editor_text browser st))
    (st ← boot; st ← remove (Some "constructor") st;
     open browser (Some "constructor") st)
  = Some (None, "function Object() { [native code] }")
  /\
  (st ← boot_with old_browser (Some ∅); st ← remove (Some "constructor") st;
   open old_browser (Some "constructor") st)
  = Throw TypeError.
Proof. split; vm_compute; reflexivity. Qed.

(** C9, at the failing input: [get("constructor")] finds the property
    that the literal [available] inherits from [Object.prototype] and
    returns it, where an absent value is due. *)
Theorem get_inherited_name :
  observe (fun st => get st "constructor") boot = Some (JBuiltin "constructor").
Proof. vm_compute. reflexivity. Qed.

(** ** The emitter *)

Lemma set_calls_id (st : state) : set_calls (calls st) st = st.
Proof. destruct st; reflexivity. Qed.

(** Emitting an event whose name no object inherits returns, and changes
    the record of invocations only. *)
Lemma emit_ok (ev : string) (st : state) :
  inherited ev = false -> exists cs, emit ev st = Ok (set_calls cs st).
Proof.
  intros Hev. unfold emit, js_lookup. rewrite Hev.
  destruct (events st !! ev) as [hs|].
  - eexists. reflexivity.
  - exists (calls st). rewrite set_calls_id. reflexivity.
Qed.

(** With no handler registered, emitting changes nothing. *)
Lemma emit_unregistered (ev : string) (st : state) :
  inherited ev = false -> events st !! ev = None -> emit ev st = Ok st.
Proof.
  intros Hev Hno. unfold emit, js_lookup. rewrite Hno, Hev. reflexivity.
Qed.

(** Without a handler argument, [removeListener] leaves the event with no
    handler, whatever was registered for it. *)
Lemma removeListener_all (ev : string) (hs : list handler) (st : state) :
  events st !! ev = Some hs ->
  exists st', removeListener ev None st = Ok st' /\
    events st' !! ev = Some [] /\
    forall ev', ev' <> ev -> events st' !! ev' = events st !! ev'.
Proof.
  intros Hreg. eexists. split; [reflexivity|].
  simpl. unfold js_set. rewrite Hreg. split.
  - apply lookup_insert_eq.
  - intros ev' Hne. apply lookup_insert_ne. congruence.
Qed.

(** ** The surfaces that [get] names *)

Lemma get_wrapper (st : state) : get st "wrapper" = JNode N_wrapper.
Proof. vm_compute. reflexivity. Qed.

Lemma get_editor (st : state) : get st "editor" = JNode N_editor.
Proof. vm_compute. reflexivity. Qed.

(** The five names give their node. *)
Lemma get_recognized (st : state) :
  get st "document" = JNode N_document /\ get st "body" = JNode N_body /\
  get st "editor" = JNode N_editor /\ get st "previewer" = JNode N_previewer /\
  get st "wrapper" = JNode N_wrapper.
Proof. repeat split; vm_compute; reflexivity. Qed.

(** A name that is neither one of the five nor inherited gives [null]. *)
Lemma get_unrecognized (st : state) (name : string) :
  name ∉ ["document"; "body"; "editor"; "previewer"; "wrapper"] ->
  inherited name = false ->
  get st name = JNull.
Proof.
  intros Hnot Hinh.
  assert (Hlook : available st !! name = None).
  { unfold available. apply not_elem_of_list_to_map_1. simpl. exact Hnot. }
  unfold get, js_get, js_lookup. rewrite Hlook, Hinh. reflexivity.
Qed.

(** ** View modes *)

(** Rewrites the first [emit] of the goal into its result. *)
Ltac emit_step :=
  match goal with
  | |- context [emit ?ev ?s] =>
      let cs := fresh "cs" in
      let H := fresh "Hemit" in
      let Hev := fresh "Hev" in
      assert (Hev : inherited ev = false) by (vm_compute; reflexivity);
      destruct (emit_ok ev s Hev) as [cs H]; rewrite H; clear H Hev
  end.

(** What a call of [preview] does, live or not: it returns; the wrapper
    gets its class replaced, the previewer the rendered text; the flags
    and the display of the two frames change in the call that is not
    live, and only there. *)
Lemma preview_spec (E : env) (theme : arg) (live : bool) (st : state) :
  let live' := match theme with ArgBool b => b | _ => live end in
  exists st',
    preview E theme live st = Ok st' /\
    eeState st' =
      (if live' then eeState st
       else {| Flags.fullscreen := Flags.fullscreen (eeState st);
               Flags.preview := true; Flags.edit := false |}) /\
    (forall n, n <> N_wrapper -> n <> N_previewer ->
       dom st' n =
         if live' then dom st n
         else if decide (n = N_editorIframe) then set_display "none" (dom st n)
         else if decide (n = N_previewerIframe) then set_display "block" (dom st n)
         else dom st n) /\
    dom st' N_wrapper =
      _replaceClass (dom st N_wrapper) "epiceditor-edit-mode" "epiceditor-preview-mode" /\
    dom st' N_previewer = set_innerHTML (exportHTML E st) (dom st N_previewer) /\
    this_settings st' = this_settings st /\
    events st' = events st /\
    localStorage st' = localStorage st /\
    _isInEdit st' = _isInEdit st /\
    _elementStates st' = _elementStates st /\
    isMod st' = isMod st /\ isCtrl st' = isCtrl st /\
    live_keyup st' = live_keyup st.
Proof.
  intros live'. unfold preview. rewrite get_wrapper. cbn [as_node mbind result_bind].
  fold live'.
  destruct live'; cbn [negb]; emit_step; eexists; (split; [reflexivity|]);
    (repeat split; try (destruct (getElementById _ _) as [l|];
                        [destruct (negb _)|]; reflexivity));
    intros n Hw Hp; destruct n; try congruence;
    destruct (getElementById _ _) as [l|]; try destruct (negb _); reflexivity.
Qed.

(** C7, as stated, fails on the wrapper: a live call replaces the mode
    class of the wrapper, which is neither the rendered content nor the
    theme link. And with the boolean [false] in the place of the theme the
    call is not live at all. *)
Lemma preview_live_changes_wrapper :
  observe (fun st => className (dom st N_wrapper)) boot
  = Some "epiceditor-wrapper epiceditor-edit-mode"
  /\
  observe (fun st => className (dom st N_wrapper))
    (st ← boot; preview browser ArgUndefined true st)
  = Some "epiceditor-wrapper epiceditor-preview-mode"
  /\
  observe (fun st => (eeState st, display N_editorIframe st))
    (st ← boot; preview browser (ArgBool false) true st)
  = Some ({| Flags.fullscreen := false; Flags.preview := true; Flags.edit := false |},
          Some "none").
Proof. repeat split; vm_compute; reflexivity. Qed.

(** C7, amended: for a theme that is a path, absent, or the boolean
    [true], the live call returns and changes neither the mode flags nor
    any node but two: the wrapper, whose class alone changes, and the
    previewer, which receives the rendered text. In particular the display
    of both frames is as before. Settings, handlers, storage and the
    closure variables are untouched; the theme link and the record of
    invoked handlers may change. *)
Theorem preview_live_frame (E : env) (theme : arg) (st : state) :
  theme <> ArgBool false ->
  exists st',
    preview E theme true st = Ok st' /\
    eeState st' = eeState st /\
    display N_editorIframe st' = display N_editorIframe st /\
    display N_previewerIframe st' = display N_previewerIframe st /\
    (forall n, n <> N_wrapper -> n <> N_previewer -> dom st' n = dom st n) /\
    dom st' N_wrapper =
      set_className
        (replace_first "epiceditor-edit-mode" "epiceditor-preview-mode"
           (className (dom st N_wrapper)))
        (dom st N_wrapper) /\
    dom st' N_previewer = set_innerHTML (exportHTML E st) (dom st N_previewer) /\
    this_settings st' = this_settings st /\
    events st' = events st /\
    localStorage st' = localStorage st /\
    _isInEdit st' = _isInEdit st /\
    _elementStates st' = _elementStates st /\
    live_keyup st' = live_keyup st.
Proof.
  intros Htheme.
  destruct (preview_spec E theme true st)
    as (st' & Hrun & Hflags & Hdom & Hwrap & Hprev & Hset & Hev & Hls & Hin & Hel & _ & _ & Hlive).
  assert (Hlive' : match theme with ArgBool b => b | _ => true end = true).
  { destruct theme as [|[|]|]; try reflexivity. congruence. }
  rewrite Hlive' in Hflags, Hdom.
  exists st'. repeat split; try assumption.
  - unfold display. rewrite Hdom; [reflexivity|discriminate|discriminate].
  - unfold display. rewrite Hdom; [reflexivity|discriminate|discriminate].
Qed.

Lemma preview_live_frame_witness :
  exists st',
    preview browser (ArgString "dark.css") true
      (update_node N_wrapper (set_className "epiceditor-wrapper epiceditor-edit-mode")
         {| this_settings := merge opts; events := ∅;
            eeState := {| Flags.fullscreen := true; Flags.preview := true;
                          Flags.edit := true |};
            dom := page; previewer_head := []; localStorage := Some ∅;
            _isInEdit := true; _elementStates := ∅; isMod := false;
            isCtrl := false; live_keyup := 1; calls := [] |})
    = Ok st' /\
    eeState st' = {| Flags.fullscreen := true; Flags.preview := true; Flags.edit := true |} /\
    className (dom st' N_wrapper) = "epiceditor-wrapper epiceditor-preview-mode".
Proof.
  destruct (preview_live_frame browser (ArgString "dark.css")
              (update_node N_wrapper (set_className "epiceditor-wrapper epiceditor-edit-mode")
                 {| this_settings := merge opts; events := ∅;
                    eeState := {| Flags.fullscreen := true; Flags.preview := true;
                                  Flags.edit := true |};
                    dom := page; previewer_head := []; localStorage := Some ∅;
                    _isInEdit := true; _elementStates := ∅; isMod := false;
                    isCtrl := false; live_keyup := 1; calls := [] |}))
    as (st' & Hrun & Hflags & _ & _ & _ & Hwrap & _).
  - discriminate.
  - exists st'. split; [exact Hrun|]. split; [exact Hflags|].
    rewrite Hwrap. vm_compute. reflexivity.
Defined.

Lemma edit_spec (st : state) :
  exists st',
    edit st = Ok st' /\
    eeState st' = {| Flags.fullscreen := Flags.fullscreen (eeState st);
                     Flags.preview := false; Flags.edit := true |} /\
    _isInEdit st' = _isInEdit st /\
    localStorage st' = localStorage st /\
    this_settings st' = this_settings st.
Proof.
  unfold edit. rewrite get_wrapper. cbn [as_node mbind result_bind].
  emit_step. eexists. split; [reflexivity|]. repeat split.
Qed.

Lemma _goFullscreen_spec (E : env) (st : state) :
  exists st',
    _goFullscreen E st = Ok st' /\
    eeState st' = {| Flags.fullscreen := true; Flags.preview := true;
                     Flags.edit := true |} /\
    _isInEdit st' = _isInEdit st /\
    localStorage st' = localStorage st /\
    this_settings st' = this_settings st /\
    live_keyup st' = S (live_keyup st).
Proof.
  unfold _goFullscreen.
  match goal with
  | |- context [preview E (ArgBool true) false ?X] =>
      destruct (preview_spec E (ArgBool true) false X)
        as (st' & Hrun & Hflags & _ & _ & _ & Hset & _ & Hls & Hin & _ & _ & _ & Hlive)
  end.
  cbn zeta in Hrun. cbn zeta. rewrite Hrun. cbn [mbind result_bind].
  eexists. split; [reflexivity|].
  cbn [eeState _isInEdit localStorage this_settings live_keyup set_live_keyup].
  rewrite Hflags, Hin, Hls, Hset, Hlive.
  destruct (nativeFs E); repeat split.
Qed.

Lemma _exitFullscreen_spec (E : env) (st : state) :
  eeState (_exitFullscreen E st) =
    (if _isInEdit st
     then {| Flags.fullscreen := false; Flags.preview := false;
             Flags.edit := Flags.edit (eeState st) |}
     else {| Flags.fullscreen := false; Flags.preview := Flags.preview (eeState st);
             Flags.edit := false |}) /\
  _isInEdit (_exitFullscreen E st) = _isInEdit st /\
  localStorage (_exitFullscreen E st) = localStorage st /\
  this_settings (_exitFullscreen E st) = this_settings st.
Proof.
  unfold _exitFullscreen.
  destruct (nativeFs E); cbn; destruct (_isInEdit st) eqn:Hin; cbn; rewrite ?Hin; repeat split.
Qed.

(** [open] returns or throws; when it returns, it has changed the editor,
    the previewer, the active name and the record of invocations only. *)
Lemma open_frame (E : env) (name : option string) (st st' : state) :
  open E name st = Ok st' ->
  eeState st' = eeState st /\ _isInEdit st' = _isInEdit st /\
  localStorage st' = localStorage st /\ events st' = events st /\
  _elementStates st' = _elementStates st /\
  localStorageName (this_settings st') = localStorageName (this_settings st) /\
  file_defaultContent (this_settings st') = file_defaultContent (this_settings st) /\
  forall n, n <> N_editor -> n <> N_previewer -> dom st' n = dom st n.
Proof.
  unfold open.
  destruct (localStorage st) as [items|] eqn:Hls.
  2: { intros [= <-]. rewrite Hls. repeat split. }
  destruct (items !! _) as [blob|].
  2: { intros [= <-]. rewrite Hls. repeat split. }
  destruct (if truthy _ then _ else _) as [ed|e]; cbn [mbind result_bind]; [|discriminate].
  emit_step. intros [= <-]. cbn. rewrite Hls. repeat split.
  intros n He Hp. destruct n; try congruence; reflexivity.
Qed.

(** [load] leaves the instance in edit mode, and [_isInEdit] true. *)
Lemma load_initial (E : env) (page : node -> element) (i : instance) (ls : storage)
    (st : state) :
  load E page i ls = Ok st ->
  eeState st = {| Flags.fullscreen := false; Flags.preview := false; Flags.edit := true |} /\
  _isInEdit st = true /\
  localStorage st = ls.
Proof.
  unfold load.
  match goal with
  | |- context [open E ?n ?X] => destruct (open E n X) as [st1|e] eqn:Hopen
  end; cbn [mbind result_bind]; [|discriminate].
  apply open_frame in Hopen. destruct Hopen as (Hflags & _ & Hls & _).
  emit_step. intros [= <-]. cbn. cbn in Hflags, Hls. rewrite Hflags, Hls.
  repeat split.
Qed.

(** Every transition returns. *)
Lemma step_returns (E : env) (t : transition) (st : state) :
  exists st', step E t st = Ok st'.
Proof.
  destruct t; cbn [step].
  - destruct (preview_spec E ArgUndefined false st) as (st' & H & _). eauto.
  - destruct (edit_spec st) as (st' & H & _). eauto.
  - destruct (_goFullscreen_spec E st) as (st' & H & _). eauto.
  - eauto.
Qed.

(** A transition that passes its gate keeps the invariant of the flags,
    in an instance whose [_isInEdit] is true. *)
Lemma step_gated_invariant (E : env) (t : transition) (st st' : state) :
  _isInEdit st = true ->
  flags_ok (eeState st) = true ->
  gate t st = true ->
  step E t st = Ok st' ->
  flags_ok (eeState st') = true /\ _isInEdit st' = true.
Proof.
  intros Hin Hok Hgate Hstep. destruct t; cbn [step gate] in *.
  - destruct (preview_spec E ArgUndefined false st) as (st1 & H & Hflags & _ & _ & _ & _ & _ & _ & Hin' & _).
    rewrite H in Hstep. injection Hstep as <-. cbn in Hflags.
    rewrite Hflags, Hin'. unfold flags_ok. cbn.
    destruct (Flags.fullscreen (eeState st)); [discriminate|]. auto.
  - destruct (edit_spec st) as (st1 & H & Hflags & Hin' & _).
    rewrite H in Hstep. injection Hstep as <-.
    rewrite Hflags, Hin'. unfold flags_ok. cbn.
    destruct (Flags.fullscreen (eeState st)); [discriminate|]. auto.
  - destruct (_goFullscreen_spec E st) as (st1 & H & Hflags & Hin' & _).
    rewrite H in Hstep. injection Hstep as <-.
    rewrite Hflags, Hin'. auto.
  - injection Hstep as <-.
    destruct (_exitFullscreen_spec E st) as (Hflags & Hin' & _).
    rewrite Hflags, Hin', Hin. unfold flags_ok in *. cbn.
    rewrite Hgate in Hok. apply andb_true_iff in Hok as [-> _]. auto.
Qed.

Lemma run_gated_invariant (E : env) (ts : list transition) :
  forall st,
    _isInEdit st = true ->
    flags_ok (eeState st) = true ->
    gated E ts st = true ->
    exists st', run E ts st = Ok st' /\
                flags_ok (eeState st') = true /\ _isInEdit st' = true.
Proof.
  induction ts as [|t ts IH]; intros st Hin Hok Hgated.
  - exists st. auto.
  - cbn [gated] in Hgated. apply andb_true_iff in Hgated as [Hgate Hrest].
    destruct (step_returns E t st) as [st1 Hstep].
    rewrite Hstep in Hrest.
    destruct (step_gated_invariant E t st st1 Hin Hok Hgate Hstep) as [Hok1 Hin1].
    destruct (IH st1 Hin1 Hok1 Hrest) as (st' & Hrun & Hok' & Hin').
    exists st'. cbn [run]. rewrite Hstep. cbn [mbind result_bind]. auto.
Qed.

(** C3, as stated, fails: the methods [edit] and [preview] do not look at
    the fullscreen flag, and the exit does not check that the instance is
    in fullscreen. Editing in fullscreen leaves [preview] false with
    [fullscreen] true; leaving a fullscreen never entered, from preview
    mode, leaves neither [edit] nor [preview] true. *)
Lemma flags_invariant_fails_ungated :
  observe eeState (st ← boot; run browser [T_enterFullscreen; T_edit] st)
  = Some {| Flags.fullscreen := true; Flags.preview := false; Flags.edit := true |}
  /\
  observe eeState (st ← boot; run browser [T_preview; T_exitFullscreen] st)
  = Some {| Flags.fullscreen := false; Flags.preview := false; Flags.edit := false |}
  /\
  flags_ok {| Flags.fullscreen := true; Flags.preview := false; Flags.edit := true |} = false
  /\
  flags_ok {| Flags.fullscreen := false; Flags.preview := false; Flags.edit := false |} = false.
Proof. repeat split; vm_compute; reflexivity. Qed.

(** C3, amended: from a loaded instance, every run of transitions in which
    [preview] and [edit] are taken outside fullscreen and the exit is
    taken in fullscreen (the gates of the keyboard handler) returns, and
    ends with exactly one of [edit] and [preview] true when [fullscreen]
    is false, and both true when it is true. *)
Theorem flags_invariant_gated (E : env) (page : node -> element) (i : instance)
    (ls : storage) (st0 : state) (ts : list transition) :
  load E page i ls = Ok st0 ->
  gated E ts st0 = true ->
  exists st, run E ts st0 = Ok st /\ flags_ok (eeState st) = true.
Proof.
  intros Hload Hgated.
  destruct (load_initial E page i ls st0 Hload) as (Hflags & Hin & _).
  destruct (run_gated_invariant E ts st0 Hin) as (st & Hrun & Hok & _).
  - rewrite Hflags. reflexivity.
  - exact Hgated.
  - eauto.
Qed.

Lemma flags_invariant_gated_witness :
  exists st0,
    boot = Ok st0 /\
    exists st,
      run browser [T_preview; T_enterFullscreen; T_enterFullscreen;
                   T_exitFullscreen; T_edit; T_preview] st0 = Ok st /\
      flags_ok (eeState st) = true.
Proof.
  eexists. split.
  - vm_compute. reflexivity.
  - apply (flags_invariant_gated browser page
             (EpicEditor opts (Some ∅)).1 (EpicEditor opts (Some ∅)).2).
    + vm_compute. reflexivity.
    + vm_compute. reflexivity.
Defined.

(** The defect behind C2 in general: whatever the mode at entry, the exit
    from fullscreen of a loaded instance ends in edit mode. *)
Lemma exitFullscreen_always_edit (E : env) (st st1 : state) :
  _isInEdit st = true ->
  _goFullscreen E st = Ok st1 ->
  eeState (_exitFullscreen E st1)
  = {| Flags.fullscreen := false; Flags.preview := false; Flags.edit := true |}.
Proof.
  intros Hin Hgo.
  destruct (_goFullscreen_spec E st) as (st' & H & Hflags & Hin' & _).
  rewrite H in Hgo. injection Hgo as <-.
  destruct (_exitFullscreen_spec E st') as (Hexit & _).
  rewrite Hexit, Hin', Hin, Hflags. reflexivity.
Qed.

(** The keyboard handler takes every transition through its gate: a key
    press keeps the invariant of the flags. *)

Lemma cond_step_good (E : env) (b : bool) (t : transition) (st : state) :
  good st ->
  (b = true -> gate t st = true) ->
  exists st', (if b then step E t st else Ok st) = Ok st' /\ good st'.
Proof.
  intros [Hin Hok] Hgate. destruct b.
  - destruct (step_returns E t st) as [st' Hstep].
    destruct (step_gated_invariant E t st st' Hin Hok (Hgate eq_refl) Hstep).
    exists st'. unfold good. auto.
  - exists st. unfold good. auto.
Qed.

Lemma set_keys_good (m c : bool) (st : state) : good st -> good (set_keys m c st).
Proof. intros H. exact H. Qed.

Lemma shortcutHandler_invariant (E : env) (keyCode : Z) (st : state) :
  good st ->
  exists st', shortcutHandler E keyCode st = Ok st' /\ good st'.
Proof.
  intros Hgood. unfold shortcutHandler.
  set (st1 := if (keyCode =? shortcut_modifier (this_settings st))%Z
              then set_keys true (isCtrl st) st else st).
  assert (H1 : good st1) by (subst st1; destruct (_ =? _)%Z; assumption).
  clearbody st1. clear Hgood st.
  set (st2 := if (keyCode =? 17)%Z then set_keys (isMod st1) true st1 else st1).
  assert (H2 : good st2) by (subst st2; destruct (_ =? _)%Z; assumption).
  clearbody st2. clear H1 st1.
  destruct (cond_step_good E
              (isMod st2 && (keyCode =? shortcut_preview (this_settings st2))%Z
               && negb (Flags.fullscreen (eeState st2))) T_preview st2 H2)
    as (st3 & Hrun3 & H3).
  { intros Hb. apply andb_true_iff in Hb as [_ Hb]. exact Hb. }
  cbn [step] in Hrun3. rewrite Hrun3. cbn [mbind result_bind]. clear Hrun3 H2 st2.
  destruct (cond_step_good E
              (isMod st3 && (keyCode =? shortcut_edit (this_settings st3))%Z
               && negb (Flags.fullscreen (eeState st3))) T_edit st3 H3)
    as (st4 & Hrun4 & H4).
  { intros Hb. apply andb_true_iff in Hb as [_ Hb]. exact Hb. }
  cbn [step] in Hrun4.
  assert (Hrun4' :
    (if isMod st3 && (keyCode =? shortcut_edit (this_settings st3))%Z
     then if negb (Flags.fullscreen (eeState st3)) then edit st3 else Ok st3
     else Ok st3) = Ok st4).
  { rewrite <- Hrun4. destruct (isMod st3 && _); destruct (negb _); reflexivity. }
  rewrite Hrun4'. cbn [mbind result_bind]. clear Hrun4 Hrun4' H3 st3.
  destruct (cond_step_good E
              (isMod st4 && (keyCode =? shortcut_fullscreen (this_settings st4))%Z)
              T_enterFullscreen st4 H4)
    as (st5 & Hrun5 & H5).
  { reflexivity. }
  cbn [step] in Hrun5. rewrite Hrun5. cbn [mbind result_bind]. clear Hrun5 H4 st4.
  destruct (cond_step_good E
              ((keyCode =? 27)%Z && Flags.fullscreen (eeState st5) && negb (nativeFs E))
              T_exitFullscreen st5 H5)
    as (st6 & Hrun6 & H6).
  { intros Hb. apply andb_true_iff in Hb as [Hb _].
    apply andb_true_iff in Hb as [_ Hb]. exact Hb. }
  exists st6. split; [|exact H6].
  rewrite <- Hrun6. cbn [step].
  destruct ((keyCode =? 27)%Z && _); destruct (negb _); reflexivity.
Qed.

(** ** Text of the editable surface *)

Lemma br_to_nl_no_match (c : ascii) (t : string) :
  starts_br (String c t) = false ->
  br_to_nl (String c t) = String c (br_to_nl t).
Proof.
  intros H. cbn [br_to_nl]. destruct t as [|c2 [|c3 [|c4 r]]]; try reflexivity.
  cbn [starts_br] in H. rewrite H. reflexivity.
Qed.

Lemma has_br_cons (c : ascii) (t : string) :
  has_br (String c t) = starts_br (String c t) || has_br t.
Proof.
  cbn [has_br starts_br]. destruct t as [|c2 [|c3 [|c4 r]]]; reflexivity.
Qed.

(** A line break rewritten to [<br>] puts a ["<"] where a tag needs
    another character: rewriting creates no match that spans text of the
    original. *)
Lemma starts_br_nl_to_br (c : ascii) (s : string) :
  Ascii.eqb c newline = false ->
  starts_br (String c (nl_to_br s)) = true ->
  starts_br (String c s) = true.
Proof.
  intros Hc.
  assert (Hbr : forall t, "<br>" +:+ t = String "<" (String "b" (String "r" (String ">" t))))
    by reflexivity.
  destruct s as [|x s]; [intros H; exact H|].
  cbn [nl_to_br]. destruct (Ascii.eqb x newline) eqn:Hx.
  { rewrite Hbr. cbn [starts_br]. unfold is_br. cbn.
    rewrite ?andb_false_r. discriminate. }
  destruct s as [|y s]; [intros H; exact H|].
  cbn [nl_to_br]. destruct (Ascii.eqb y newline) eqn:Hy.
  { rewrite Hbr. cbn [starts_br]. unfold is_br. cbn.
    rewrite ?andb_false_r. discriminate. }
  destruct s as [|z s]; [intros H; exact H|].
  cbn [nl_to_br]. destruct (Ascii.eqb z newline) eqn:Hz.
  { rewrite Hbr. cbn [starts_br]. unfold is_br. cbn.
    rewrite ?andb_false_r. discriminate. }
  intros H. exact H.
Qed.

Lemma br_to_nl_br (t : string) :
  br_to_nl ("<br>" +:+ t) = String newline (br_to_nl t).
Proof. reflexivity. Qed.

(** Reading back a text written to [innerHTML] gives the text, when it
    holds no [<br>] of its own. *)
Lemma br_roundtrip (c : string) :
  has_br c = false -> br_to_nl (nl_to_br c) = c.
Proof.
  induction c as [|ch c IH]; [reflexivity|].
  rewrite has_br_cons. intros H. apply orb_false_iff in H as [Hstart Hrest].
  cbn [nl_to_br]. destruct (Ascii.eqb ch newline) eqn:Hch.
  - apply Ascii.eqb_eq in Hch. subst ch.
    rewrite br_to_nl_br, (IH Hrest). reflexivity.
  - rewrite br_to_nl_no_match.
    + rewrite (IH Hrest). reflexivity.
    + destruct (starts_br (String ch (nl_to_br c))) eqn:Hs; [|reflexivity].
      apply (starts_br_nl_to_br ch c Hch) in Hs. congruence.
Qed.

Lemma _setText_string (E : env) (el : element) (c : string) :
  exists el', _setText E el (JString c) = Ok el' /\
    (forall r, _getText E r el' = (if hasInnerText E then readText E r c
                                   else br_to_nl (readMarkup E (nl_to_br c)))) /\
    value el' = value el /\ style el' = style el /\ className el' = className el.
Proof.
  unfold _setText, _getText. destruct (hasInnerText E); eexists; repeat split.
Qed.

(** What the sample browsers give back: the text comes back as it was
    set when it has neither a run of blanks nor a bare ampersand, and
    not otherwise. *)
Example sample_read_back :
  (el ← _setText browser blank (JString "a b"); Ok (_getText browser true el)) = Ok "a b" /\
  (el ← _setText browser blank (JString "a  b"); Ok (_getText browser true el)) = Ok "a b" /\
  (el ← _setText old_browser blank (JString "a and b"); Ok (_getText old_browser true el))
  = Ok "a and b" /\
  (el ← _setText old_browser blank (JString "a & b"); Ok (_getText old_browser true el))
  = Ok "a &amp; b".
Proof. repeat split; vm_compute; reflexivity. Qed.

(** ** The document store *)





Lemma inherited_proto : inherited "__proto__" = true.
Proof. vm_compute. reflexivity. Qed.

(** An assignment under a name that is not [__proto__] is an insertion. *)
Lemma js_set_insert {A : Type} (o : gmap string A) (k : string) (v : A) :
  k <> "__proto__" -> js_set o k v = <[k := v]> o.
Proof.
  intros Hk. unfold js_set. destruct (o !! k); [reflexivity|].
  apply String.eqb_neq in Hk. rewrite Hk. reflexivity.
Qed.

Lemma not_inherited_not_proto (k : string) : inherited k = false -> k <> "__proto__".
Proof. intros H ->. rewrite inherited_proto in H. discriminate. Qed.
















(** ** The listeners and the flags *)

Lemma toggle_click_invariant (E : env) (st : state) :
  good st ->
  Flags.fullscreen (eeState st) = false ->
  exists st', toggle_click E st = Ok st' /\ good st'.
Proof.
  intros Hgood Hfs. unfold toggle_click. destruct (Flags.edit (eeState st)).
  - apply (cond_step_good E true T_preview st Hgood). intros _. cbn. rewrite Hfs. reflexivity.
  - apply (cond_step_good E true T_edit st Hgood). intros _. cbn. rewrite Hfs. reflexivity.
Qed.

Lemma fullscreen_click_invariant (E : env) (st : state) :
  good st -> exists st', fullscreen_click E st = Ok st' /\ good st'.
Proof.
  intros Hgood. apply (cond_step_good E true T_enterFullscreen st Hgood). reflexivity.
Qed.

Lemma fullscreenchange_invariant (E : env) (isFullScreen : bool) (st : state) :
  good st ->
  Flags.fullscreen (eeState st) = true ->
  good (fullscreenchange E isFullScreen st).
Proof.
  intros Hgood Hfs. unfold fullscreenchange.
  destruct (nativeFs E); [|exact Hgood]. destruct isFullScreen; [exact Hgood|].
  destruct (cond_step_good E true T_exitFullscreen st Hgood) as (st' & Hstep & Hgood').
  - intros _. exact Hfs.
  - cbn in Hstep. injection Hstep as <-. exact Hgood'.
Qed.

(** The live previews that a key release in the editor triggers return
    and leave the flags and the display of the frames as they are. *)
Lemma live_preview_flags (E : env) (n : nat) :
  forall st, exists st',
    live_preview E n st = Ok st' /\
    eeState st' = eeState st /\ _isInEdit st' = _isInEdit st /\
    display N_editorIframe st' = display N_editorIframe st /\
    display N_previewerIframe st' = display N_previewerIframe st.
Proof.
  induction n as [|n IH]; intros st.
  - exists st. repeat split.
  - destruct (preview_spec E (ArgBool true) false st)
      as (st1 & Hrun & Hflags & Hdom & _ & _ & _ & _ & _ & Hin & _).
    destruct (IH st1) as (st' & Hrest & Hflags' & Hin' & Hd1 & Hd2).
    exists st'. cbn [live_preview]. rewrite Hrun. cbn [mbind result_bind].
    split; [exact Hrest|]. cbn in Hflags, Hdom.
    rewrite Hflags', Hin', Hd1, Hd2, Hflags, Hin. unfold display.
    rewrite !Hdom by discriminate. repeat split.
Qed.

Lemma editor_keyup_invariant (E : env) (keyCode : Z) (st : state) :
  good st -> exists st', editor_keyup E keyCode st = Ok st' /\ good st'.
Proof.
  intros [Hin Hok]. unfold editor_keyup.
  destruct (live_preview_flags E (live_keyup st) st) as (st1 & Hrun & Hflags & Hin1 & _).
  rewrite Hrun. cbn [mbind result_bind]. eexists. split; [reflexivity|].
  unfold good, shortcutUpHandler.
  destruct (_ =? shortcut_modifier _)%Z; destruct (_ =? 17)%Z; cbn;
    rewrite Hflags, Hin1; auto.
Qed.

(** ** Construction and the store *)

(** The constructor writes to the storage only when the item is missing. *)
Lemma EpicEditor_existing_item (o : options) (items : gmap string (gmap string string))
    (blob : gmap string string) :
  items !! localStorageName (merge o) = Some blob ->
  (EpicEditor o (Some items)).2 = Some items.
Proof.
  intros Hitem. unfold EpicEditor. cbv zeta. rewrite Hitem.
  destruct (negb _); reflexivity.
Qed.

(** C10, as stated, fails in its last clause: an entry for the configured
    name comes about without any explicit [save]. The instance is loaded
    with the autosave interval of the defaults, and the first tick of the
    timer stores the text of the editable surface under the configured
    name; [rename] to that name creates the entry too. *)
Lemma entry_created_without_save :
  observe (fun st => (stored_file "a" st, file_autoSave (this_settings st)))
    (boot_with browser (Some {[ "epiceditor" := {[ "b" := "kept" ]} ]}))
  = Some (None, Some 100%Z)
  /\
  observe (stored_file "a")
    (st ← boot_with browser (Some {[ "epiceditor" := {[ "b" := "kept" ]} ]});
     autosave_tick browser st)
  = Some (Some "hello")
  /\
  observe (stored_file "a")
    (st ← boot_with browser (Some {[ "epiceditor" := {[ "b" := "kept" ]} ]});
     rename browser "b" "a" st)
  = Some (Some "kept").
Proof. repeat split; vm_compute; reflexivity. Qed.

(** C10, amended: when the storage holds the item of the instance and the
    item has no entry for the configured file name, the constructor
    leaves the storage as it found it; in particular the default content
    is not stored under that name. Loading the instance does not store it
    either. *)
Theorem constructor_keeps_store (o : options) (items : gmap string (gmap string string))
    (blob : gmap string string) :
  items !! localStorageName (merge o) = Some blob ->
  blob !! file_name (merge o) = None ->
  (EpicEditor o (Some items)).2 = Some items /\
  storage_file (EpicEditor o (Some items)).2
    (localStorageName (merge o)) (file_name (merge o)) = None /\
  forall (E : env) (page : node -> element) (st : state),
    load E page (EpicEditor o (Some items)).1 (EpicEditor o (Some items)).2 = Ok st ->
    localStorage st = Some items.
Proof.
  intros Hitem Hentry.
  rewrite (EpicEditor_existing_item o items blob Hitem).
  split; [reflexivity|]. split.
  - unfold storage_file, storage_files. rewrite Hitem. exact Hentry.
  - intros E page st Hload. apply load_initial in Hload. tauto.
Qed.

Lemma constructor_keeps_store_witness :
  (EpicEditor opts (Some {[ "epiceditor" := {[ "b" := "kept" ]} ]})).2
  = Some {[ "epiceditor" := {[ "b" := "kept" ]} ]} /\
  storage_file (EpicEditor opts (Some {[ "epiceditor" := {[ "b" := "kept" ]} ]})).2
    (localStorageName (merge opts)) (file_name (merge opts)) = None /\
  forall (E : env) (page : node -> element) (st : state),
    load E page (EpicEditor opts (Some {[ "epiceditor" := {[ "b" := "kept" ]} ]})).1
      (EpicEditor opts (Some {[ "epiceditor" := {[ "b" := "kept" ]} ]})).2 = Ok st ->
    localStorage st = Some {[ "epiceditor" := {[ "b" := "kept" ]} ]}.
Proof.
  apply (constructor_keeps_store opts {[ "epiceditor" := {[ "b" := "kept" ]} ]}
           {[ "b" := "kept" ]}); vm_compute; reflexivity.
Defined.

(** An explicit [save] on the loaded instance is what creates the
    entry. *)
Example save_creates_entry :
  observe (stored_file "a")
    (boot_with browser (Some {[ "epiceditor" := {[ "b" := "kept" ]} ]}))
  = Some None
  /\
  observe (stored_file "a")
    (st ← boot_with browser (Some {[ "epiceditor" := {[ "b" := "kept" ]} ]});
     save browser None None st)
  = Some (Some "hello").
Proof. split; vm_compute; reflexivity. Qed.

(** * Further properties of the code *)

Import Chrome.

(** ** Registration and emission *)

Lemma emit_registered (ev : string) (hs : list handler) (st : state) :
  events st !! ev = Some hs ->
  emit ev st = Ok (set_calls ((calls st ++ ((fun h => (ev, h)) <$> hs))%list) st).
Proof. intros Hreg. unfold emit, js_lookup. rewrite Hreg. reflexivity. Qed.

(** X1: for an event name that no object inherits, [on] returns and puts
    the handler after those already registered; an [emit] then invokes the
    handlers of the event in the order of their registration, the new one
    last. The handlers of the other events are as before. *)
Theorem on_emit_order (ev : string) (h : handler) (st : state) :
  inherited ev = false ->
  exists st1 st2,
    on ev h st = Ok st1 /\
    emit ev st1 = Ok st2 /\
    events st1 !! ev = Some ((default [] (events st !! ev) ++ [h])%list) /\
    calls st2 =
      (calls st ++ ((fun h' => (ev, h')) <$> (default [] (events st !! ev) ++ [h])))%list /\
    forall ev', ev' <> ev -> events st1 !! ev' = events st !! ev'.
Proof.
  intros Hinh. pose proof (not_inherited_not_proto ev Hinh) as Hproto.
  assert (Hon : exists evs,
             on ev h st = Ok (set_events evs st) /\
             evs !! ev = Some ((default [] (events st !! ev) ++ [h])%list) /\
             forall ev', ev' <> ev -> evs !! ev' = events st !! ev').
  { unfold on, js_lookup. destruct (events st !! ev) as [hs|] eqn:Hreg.
    - rewrite Hreg. eexists. split; [reflexivity|]. split.
      + apply lookup_insert_eq.
      + intros ev' Hne. apply lookup_insert_ne. congruence.
    - rewrite Hinh. rewrite (js_set_insert _ _ _ Hproto), lookup_insert_eq.
      eexists. split; [reflexivity|]. split.
      + apply lookup_insert_eq.
      + intros ev' Hne. rewrite !lookup_insert_ne by congruence. reflexivity. }
  destruct Hon as (evs & Hon & Hev & Hother).
  eexists. eexists. split; [exact Hon|]. split.
  - apply emit_registered. exact Hev.
  - repeat split; assumption.
Qed.

Lemma on_emit_order_witness :
  exists st0,
    boot = Ok st0 /\
    exists st1 st2,
      on "save" 7 st0 = Ok st1 /\
      emit "save" st1 = Ok st2 /\
      events st1 !! "save" = Some ((default [] (events st0 !! "save") ++ [7])%list) /\
      calls st2 =
        (calls st0 ++ ((fun h' => ("save", h')) <$> (default [] (events st0 !! "save") ++ [7])))%list /\
      forall ev', ev' <> "save" -> events st1 !! ev' = events st0 !! ev'.
Proof.
  eexists. split.
  - vm_compute. reflexivity.
  - apply on_emit_order. vm_compute. reflexivity.
Defined.

(** X2: on an event name without handlers of its own, [emit] changes
    nothing and returns, unless the name is one that every object
    inherits: then [emit] throws, and so does [on], which finds a platform
    function where it expects its list. *)
Theorem unregistered_event_name (ev : string) (h : handler) (st : state) :
  events st !! ev = None ->
  emit ev st = (if inherited ev then Throw TypeError else Ok st) /\
  (inherited ev = true -> on ev h st = Throw TypeError).
Proof.
  intros Hno. split.
  - unfold emit, js_lookup. rewrite Hno. destruct (inherited ev); reflexivity.
  - intros Hinh. unfold on, js_lookup. rewrite Hno, Hinh. cbn zeta. rewrite Hno.
    reflexivity.
Qed.

Lemma unregistered_event_name_witness :
  exists st0,
    boot = Ok st0 /\
    emit "toString" st0 = (if inherited "toString" then Throw TypeError else Ok st0) /\
    (inherited "toString" = true -> on "toString" 7 st0 = Throw TypeError).
Proof.
  eexists. split.
  - vm_compute. reflexivity.
  - apply unregistered_event_name. vm_compute. reflexivity.
Defined.

(** X3: [removeListener] without a handler argument returns for every
    event name but [__proto__], registered or not; it leaves the event
    with an empty list, so that an [emit] of it invokes nothing, and it
    leaves the other events alone. *)
Theorem removeListener_silences (ev : string) (st : state) :
  ev <> "__proto__" ->
  exists st1,
    removeListener ev None st = Ok st1 /\
    events st1 !! ev = Some [] /\
    emit ev st1 = Ok st1 /\
    forall ev', ev' <> ev -> events st1 !! ev' = events st !! ev'.
Proof.
  intros Hproto. eexists. split; [reflexivity|].
  cbn [removeListener events set_events]. rewrite (js_set_insert _ _ _ Hproto).
  split; [apply lookup_insert_eq|]. split.
  - rewrite (emit_registered ev []) by apply lookup_insert_eq.
    cbn. rewrite app_nil_r. reflexivity.
  - intros ev' Hne. apply lookup_insert_ne. congruence.
Qed.

Lemma removeListener_silences_witness :
  exists st0,
    (st ← boot; st ← on "save" 1 st; on "save" 2 st) = Ok st0 /\
    exists st1,
      removeListener "save" None st0 = Ok st1 /\
      events st1 !! "save" = Some [] /\
      emit "save" st1 = Ok st1 /\
      forall ev', ev' <> "save" -> events st1 !! ev' = events st0 !! ev'.
Proof.
  eexists. split.
  - vm_compute. reflexivity.
  - apply removeListener_silences. discriminate.
Defined.

(** ** Text through [innerHTML] *)

Lemma starts_br_newline (t : string) : starts_br (String newline t) = false.
Proof. destruct t as [|c2 [|c3 [|c4 r]]]; reflexivity. Qed.

Lemma br_to_nl_match (c : ascii) (t : string) :
  starts_br (String c t) = true ->
  exists r, br_to_nl (String c t) = String newline r.
Proof.
  intros H. destruct t as [|c2 [|c3 [|c4 r]]]; try discriminate.
  cbn [starts_br] in H. cbn [br_to_nl]. rewrite H. eauto.
Qed.

Lemma is_br_no_newline (c1 c2 c3 c4 : ascii) :
  is_br c1 c2 c3 c4 = true ->
  Ascii.eqb c2 newline = false /\ Ascii.eqb c3 newline = false /\
  Ascii.eqb c4 newline = false.
Proof.
  unfold is_br. intros H.
  apply andb_true_iff in H as [H H4]. apply andb_true_iff in H as [H H3].
  apply andb_true_iff in H as [_ H2].
  apply Ascii.eqb_eq in H4. subst c4.
  apply orb_true_iff in H2 as [H2|H2]; apply Ascii.eqb_eq in H2; subst c2;
    apply orb_true_iff in H3 as [H3|H3]; apply Ascii.eqb_eq in H3; subst c3;
    repeat split; reflexivity.
Qed.

(** A tag of the text is still a tag after the line breaks are rewritten. *)
Lemma starts_br_kept (c : ascii) (s : string) :
  starts_br (String c s) = true ->
  starts_br (String c (nl_to_br s)) = true.
Proof.
  destruct s as [|x [|y [|z s]]]; try discriminate.
  cbn [starts_br]. intros H.
  destruct (is_br_no_newline _ _ _ _ H) as (Hx & Hy & Hz).
  cbn [nl_to_br]. rewrite Hx, Hy, Hz. exact H.
Qed.

Lemma br_roundtrip_only (c : string) :
  br_to_nl (nl_to_br c) = c -> has_br c = false.
Proof.
  induction c as [|ch c IH]; [reflexivity|].
  rewrite has_br_cons. cbn [nl_to_br]. destruct (Ascii.eqb ch newline) eqn:Hch.
  - apply Ascii.eqb_eq in Hch. subst ch. rewrite br_to_nl_br, starts_br_newline.
    intros [= H]. exact (IH H).
  - destruct (starts_br (String ch (nl_to_br c))) eqn:Hs.
    + destruct (br_to_nl_match _ _ Hs) as [r Hr]. rewrite Hr. intros [= Hnl _].
      subst ch. discriminate.
    + rewrite (br_to_nl_no_match _ _ Hs). intros [= H].
      rewrite (IH H), orb_false_r.
      destruct (starts_br (String ch c)) eqn:Hs'; [|reflexivity].
      rewrite (starts_br_kept _ _ Hs') in Hs. discriminate.
Qed.

(** X4: the two rewritings of [_setText] and [_getText] in a browser
    without [innerText]. For a string whose markup the browser gives back
    as it was assigned, [_setText] returns and [_getText] then reads the
    same string exactly when the string holds no [<br>] of its own, in
    any case of the letters. *)
Theorem text_roundtrip_iff (E : env) (rendered : bool) (el : element) (c : string) :
  hasInnerText E = false ->
  readMarkup E (nl_to_br c) = nl_to_br c ->
  exists el',
    _setText E el (JString c) = Ok el' /\
    (_getText E rendered el' = c <-> has_br c = false).
Proof.
  intros Hno Hsame.
  destruct (_setText_string E el c) as (el' & Hset & Hget & _).
  exists el'. split; [exact Hset|]. rewrite Hget, Hno, Hsame. split.
  - apply br_roundtrip_only.
  - apply br_roundtrip.
Qed.

Lemma text_roundtrip_iff_witness :
  exists el',
    _setText old_browser blank (JString ("one" +:+ String newline "two")) = Ok el' /\
    (_getText old_browser true el' = "one" +:+ String newline "two"
     <-> has_br ("one" +:+ String newline "two") = false).
Proof.
  apply text_roundtrip_iff; vm_compute; reflexivity.
Defined.

(** ** The store, file by file *)











(** ** Construction and loading *)




(** The handler invocations that an [emit] of [ev] adds. *)
Lemma emit_total (ev : string) (st : state) :
  inherited ev = false ->
  emit ev st =
    Ok (set_calls ((calls st ++ ((fun h => (ev, h)) <$> default [] (events st !! ev)))%list) st).
Proof.
  intros Hev. unfold emit, js_lookup. rewrite Hev.
  destruct (events st !! ev) as [hs|]; [reflexivity|].
  cbn. rewrite app_nil_r, set_calls_id. reflexivity.
Qed.





(** ** Fullscreen and the style snapshots *)

Lemma is_upper_lower (c : ascii) : is_upper (lower c) = false.
Proof. destruct c as [[] [] [] [] [] [] [] []]; reflexivity. Qed.

Lemma has_upper_dashed (s : string) : has_upper (dashed s) = false.
Proof.
  induction s as [|c s IH]; [reflexivity|].
  cbn [dashed]. destruct (is_upper c) eqn:Hc; cbn [has_upper].
  - rewrite is_upper_lower, IH. reflexivity.
  - rewrite Hc, IH. reflexivity.
Qed.

Lemma dashed_plain (s : string) : has_upper s = false -> dashed s = s.
Proof.
  induction s as [|c s IH]; [reflexivity|].
  cbn [has_upper dashed]. intros H. apply orb_false_iff in H as [Hc Hs].
  rewrite Hc, (IH Hs). reflexivity.
Qed.

(** The name of a property has no upper-case letter. *)
Lemma css_property_lower (k p : string) :
  css_property k = Some p -> has_upper p = false.
Proof.
  unfold css_property.
  destruct (String.eqb k "cssFloat"); [intros [= <-]; reflexivity|].
  destruct (String.eqb k "styleFloat"); [discriminate|].
  intros [= <-]. apply has_upper_dashed.
Qed.

(** A key that names a property other than itself is a camel-case one. *)
Lemma css_property_alias (k p : string) :
  css_property k = Some p -> k <> p -> has_upper k = true.
Proof.
  unfold css_property.
  destruct (String.eqb k "cssFloat") eqn:H1.
  { apply String.eqb_eq in H1. subst k. reflexivity. }
  destruct (String.eqb k "styleFloat"); [discriminate|].
  intros [= <-] Hne. destruct (has_upper k) eqn:Hu; [reflexivity|].
  rewrite (dashed_plain _ Hu) in Hne. congruence.
Qed.

Lemma getStyle_blank (el : element) (p : string) :
  has_upper p = false -> _getStyle el p = "" -> sheet el p = "".
Proof.
  unfold _getStyle. intros ->. destruct (style el !! p) as [v|]; [|auto].
  destruct (String.eqb v "") eqn:Hv; [auto|]. intros ->. discriminate.
Qed.

Lemma getStyle_camel (el : element) (k : string) :
  has_upper k = true -> _getStyle el k = "".
Proof. unfold _getStyle. intros ->. reflexivity. Qed.

Lemma sheet_assign (el : element) (k v : string) : sheet (assign_style el k v) = sheet el.
Proof. unfold assign_style. destruct (css_property k); reflexivity. Qed.

Lemma _applyStyles_cons (el : element) (a : string * string) (attrs : list (string * string)) :
  _applyStyles el (a :: attrs) = _applyStyles (assign_style el a.1 a.2) attrs.
Proof. reflexivity. Qed.

Lemma sheet_applied (attrs : list (string * string)) :
  forall el, sheet (_applyStyles el attrs) = sheet el.
Proof.
  induction attrs as [|a attrs IH]; intros el; [reflexivity|].
  rewrite _applyStyles_cons, IH. apply sheet_assign.
Qed.

(** One assignment to [el.style]. *)
Lemma getStyle_assign (el : element) (k v p : string) :
  _getStyle (assign_style el k v) p
  = if decide (css_property k = Some p)
    then (if String.eqb v "" then sheet el p else v)
    else _getStyle el p.
Proof.
  unfold assign_style. destruct (css_property k) as [q|] eqn:Hq.
  - destruct (decide (Some q = Some p)) as [[= ->]|Hne].
    + unfold _getStyle. rewrite (css_property_lower _ _ Hq).
      cbn [style set_style sheet]. rewrite lookup_insert_eq. reflexivity.
    + unfold _getStyle. cbn [style set_style sheet].
      rewrite lookup_insert_ne by congruence. reflexivity.
  - destruct (decide (None = Some p)); [discriminate|reflexivity].
Qed.

(** After [_applyStyles], a property has the value of the last entry
    whose key names it. *)
Lemma getStyle_applied (attrs : list (string * string)) :
  forall (el : element) (p : string),
    _getStyle (_applyStyles el attrs) p
    = match named attrs p with
      | Some a => if String.eqb a.2 "" then sheet el p else a.2
      | None => _getStyle el p
      end.
Proof.
  induction attrs as [|[k v] attrs IH]; intros el p; [reflexivity|].
  rewrite _applyStyles_cons, IH. cbn [named fst snd].
  destruct (named attrs p) as [a|].
  - rewrite sheet_assign. reflexivity.
  - rewrite getStyle_assign. destruct (decide _); reflexivity.
Qed.

Lemma named_Some (attrs : list (string * string)) (p : string) (a : string * string) :
  named attrs p = Some a -> css_property a.1 = Some p.
Proof.
  induction attrs as [|b attrs IH]; [discriminate|].
  cbn [named]. destruct (named attrs p) as [c|].
  - intros [= <-]. apply IH. reflexivity.
  - destruct (decide (css_property b.1 = Some p)) as [Hb|]; [|discriminate].
    intros [= <-]. exact Hb.
Qed.

Lemma named_snapshot (el : element) (styles : list (string * string)) (p : string) :
  named (_saveStyleState el "save" styles).2 p
  = (fun a => (a.1, _getStyle el a.1)) <$> named styles p.
Proof.
  cbn [_saveStyleState String.eqb Ascii.eqb Bool.eqb snd].
  induction styles as [|a styles IH]; [reflexivity|].
  cbn [fmap list_fmap named]. fold (@fmap list _ _ _ (fun a => (a.1, _getStyle el a.1)) styles).
  rewrite IH. destruct (named styles p) as [b|]; [reflexivity|].
  cbn [fmap option_fmap option_map fst]. destruct (decide _); reflexivity.
Qed.

(** A snapshot applied, to the node it was taken of or to one the same
    style sheets apply to: a property named by a key of the snapshot gets
    the value read under the last such key, which is its own value when
    the key is its dashed name and the blank string when the key is a
    camel-case alias. *)
Lemma apply_snapshot (e el : element) (styles : list (string * string)) (p : string) :
  sheet e = sheet el ->
  _getStyle (_applyStyles e (_saveStyleState el "save" styles).2) p
  = match named styles p with
    | Some a => if decide (a.1 = p) then _getStyle el p else sheet el p
    | None => _getStyle e p
    end.
Proof.
  intros Hsheet. rewrite getStyle_applied, named_snapshot.
  destruct (named styles p) as [[k v]|] eqn:Hn; [|reflexivity].
  pose proof (named_Some _ _ _ Hn) as Hk. cbn [fst] in Hk.
  cbn [fmap option_fmap option_map fst snd]. rewrite Hsheet.
  destruct (decide (k = p)) as [->|Hne].
  - destruct (String.eqb (_getStyle el p) "") eqn:Hv; [|reflexivity].
    apply String.eqb_eq in Hv. rewrite Hv.
    apply (getStyle_blank el p (css_property_lower _ _ Hk) Hv).
  - rewrite (getStyle_camel el k (css_property_alias _ _ Hk Hne)). reflexivity.
Qed.

(** Resolves [named] on a list that is written out, key by key. *)
Ltac named_compute :=
  cbn [named fst snd];
  repeat first
    [ rewrite decide_True by reflexivity
    | rewrite decide_False by (let H := fresh in intros H; vm_compute in H; discriminate H) ].

(** X12: [_saveStyleState] in its two modes, property by property. After
    the styles were saved and the returned object applied, a property
    that a key of the styles names has the value it had before when the
    last key that names it is its own dashed name. When the last key is a
    camel-case alias, [zIndex] after [z-index] or [cssFloat] after
    [float], [_getStyle] read the blank string under it: the property
    ends without a declaration, with the value of the style sheets,
    whatever it was before. *)
Theorem saveStyleState_restores (el : element) (styles : list (string * string))
    (p : string) (a : string * string) :
  named styles p = Some a ->
  _getStyle
    (_saveStyleState (_saveStyleState el "save" styles).1 "apply"
       (_saveStyleState el "save" styles).2).1 p
  = if decide (a.1 = p) then _getStyle el p else sheet el p.
Proof.
  intros Hn.
  change (_saveStyleState (_saveStyleState el "save" styles).1 "apply"
            (_saveStyleState el "save" styles).2).1
    with (_applyStyles (_applyStyles el styles) (_saveStyleState el "save" styles).2).
  rewrite (apply_snapshot _ el) by apply sheet_applied.
  rewrite Hn. reflexivity.
Qed.

Lemma saveStyleState_restores_witness :
  _getStyle
    (_saveStyleState
       (_saveStyleState (assign_style blank "z-index" "5") "save"
          [("width", "100%"); ("z-index", "9999"); ("zIndex", "9999")]).1 "apply"
       (_saveStyleState (assign_style blank "z-index" "5") "save"
          [("width", "100%"); ("z-index", "9999"); ("zIndex", "9999")]).2).1 "z-index"
  = (if decide (("zIndex", "9999").1 = "z-index")
     then _getStyle (assign_style blank "z-index" "5") "z-index"
     else sheet (assign_style blank "z-index" "5") "z-index")
  /\
  _getStyle (assign_style blank "z-index" "5") "z-index" = "5" /\
  sheet (assign_style blank "z-index" "5") "z-index" = "auto".
Proof.
  split; [|split; vm_compute; reflexivity].
  apply saveStyleState_restores. vm_compute. reflexivity.
Defined.

Lemma update_node_dom_ne (n n' : node) (f : element -> element) (st : state) :
  n <> n' -> dom (update_node n f st) n' = dom st n'.
Proof. intros Hn. cbn. apply fn_lookup_insert_ne. exact Hn. Qed.

Lemma update_node_dom_eq (n : node) (f : element -> element) (st : state) :
  dom (update_node n f st) n = f (dom st n).
Proof. cbn. apply fn_lookup_insert. Qed.

Lemma save_styles_dom_ne (x : string) (n n' : node) (s : list (string * string))
    (st : state) :
  n <> n' -> dom (save_styles x n s st) n' = dom st n'.
Proof. intros Hn. cbn. apply fn_lookup_insert_ne. exact Hn. Qed.

Lemma save_styles_dom_eq (x : string) (n : node) (s : list (string * string)) (st : state) :
  dom (save_styles x n s st) n = _applyStyles (dom st n) s.
Proof. cbn. apply fn_lookup_insert. Qed.

Lemma save_styles_states (x : string) (n : node) (s : list (string * string)) (st : state) :
  _elementStates (save_styles x n s st)
  = <[x := (_saveStyleState (dom st n) "save" s).2]> (_elementStates st).
Proof. reflexivity. Qed.

Lemma update_node_states (n : node) (f : element -> element) (st : state) :
  _elementStates (update_node n f st) = _elementStates st.
Proof. reflexivity. Qed.

(** The nodes as [_exitFullscreen] leaves them: each of the four has its
    snapshot applied. *)
Lemma _exitFullscreen_nodes (E : env) (st : state) :
  dom (_exitFullscreen E st) N_element
  = _applyStyles (dom st N_element) (default [] (_elementStates st !! "element")) /\
  dom (_exitFullscreen E st) N_iframeElement
  = _applyStyles (dom st N_iframeElement) (default [] (_elementStates st !! "iframeElement")) /\
  dom (_exitFullscreen E st) N_editorIframe
  = _applyStyles (dom st N_editorIframe) (default [] (_elementStates st !! "editorIframe")) /\
  dom (_exitFullscreen E st) N_previewerIframe
  = _applyStyles (dom st N_previewerIframe)
      (default [] (_elementStates st !! "previewerIframe")) /\
  live_keyup (_exitFullscreen E st) = live_keyup st /\
  events (_exitFullscreen E st) = events st /\
  calls (_exitFullscreen E st) = calls st.
Proof.
  unfold _exitFullscreen. destruct (nativeFs E); destruct (_isInEdit st) eqn:Hin;
    cbn [negb]; cbv zeta; cbn [_isInEdit set_eeState update_node set_dom apply_styles];
    rewrite ?Hin; repeat split.
Qed.

(** A call of [preview] invokes the handlers of [preview], once each. *)
Lemma preview_invokes (E : env) (theme : arg) (live : bool) (st st' : state) :
  preview E theme live st = Ok st' ->
  calls st' = (calls st ++ preview_calls st)%list.
Proof.
  unfold preview. rewrite get_wrapper. cbn [as_node mbind result_bind].
  rewrite (emit_total "preview") by (vm_compute; reflexivity).
  intros [= <-]. unfold preview_calls.
  destruct (match theme with ArgBool b => b | _ => live end);
    destruct (getElementById _ _) as [l|]; try destruct (negb (String.eqb _ _));
    reflexivity.
Qed.

(** The entry into fullscreen, node by node: each of the four nodes has
    its styles applied, and its snapshot is the one taken of it before;
    one more live listener sits on the editor. *)
Lemma _goFullscreen_nodes (E : env) (st : state) :
  exists st1,
    _goFullscreen E st = Ok st1 /\
    (dom st1 N_element
     = _applyStyles (dom st N_element)
         (element_styles E (_getStyle (dom st N_editor) "background-color")) /\
     dom st1 N_iframeElement
     = _applyStyles (dom st N_iframeElement) (iframeElement_styles E) /\
     dom st1 N_editorIframe
     = _applyStyles (dom st N_editorIframe) (frame_styles E "left") /\
     dom st1 N_previewerIframe
     = _applyStyles (dom st N_previewerIframe) (frame_styles E "right")) /\
    (_elementStates st1 !! "element"
     = Some (_saveStyleState (dom st N_element) "save"
               (element_styles E (_getStyle (dom st N_editor) "background-color"))).2 /\
     _elementStates st1 !! "iframeElement"
     = Some (_saveStyleState (dom st N_iframeElement) "save" (iframeElement_styles E)).2 /\
     _elementStates st1 !! "editorIframe"
     = Some (_saveStyleState (dom st N_editorIframe) "save" (frame_styles E "left")).2 /\
     _elementStates st1 !! "previewerIframe"
     = Some (_saveStyleState (dom st N_previewerIframe) "save" (frame_styles E "right")).2) /\
    live_keyup st1 = S (live_keyup st) /\
    events st1 = events st /\
    calls st1 = (calls st ++ preview_calls st)%list.
Proof.
  unfold _goFullscreen. cbv zeta.
  match goal with
  | |- context [preview E (ArgBool true) false ?X] =>
      set (st0 := X);
      destruct (preview_spec E (ArgBool true) false st0)
        as (st' & Hrun & _ & Hdom & _ & _ & _ & Hev & _ & _ & Hel & _ & _ & Hlive)
  end.
  pose proof (preview_invokes _ _ _ _ _ Hrun) as Hcalls.
  cbn zeta in Hdom. rewrite Hrun. cbn [mbind result_bind].
  eexists. split; [reflexivity|].
  cbn [dom _elementStates set_live_keyup live_keyup events calls].
  rewrite Hel, Hev, Hlive, Hcalls, !Hdom by discriminate.
  assert (Hst0 :
    (dom st0 N_element
     = _applyStyles (dom st N_element)
         (element_styles E (_getStyle (dom st N_editor) "background-color")) /\
     dom st0 N_iframeElement
     = _applyStyles (dom st N_iframeElement) (iframeElement_styles E) /\
     dom st0 N_editorIframe
     = _applyStyles (dom st N_editorIframe) (frame_styles E "left") /\
     dom st0 N_previewerIframe
     = _applyStyles (dom st N_previewerIframe) (frame_styles E "right")) /\
    (_elementStates st0 !! "element"
     = Some (_saveStyleState (dom st N_element) "save"
               (element_styles E (_getStyle (dom st N_editor) "background-color"))).2 /\
     _elementStates st0 !! "iframeElement"
     = Some (_saveStyleState (dom st N_iframeElement) "save" (iframeElement_styles E)).2 /\
     _elementStates st0 !! "editorIframe"
     = Some (_saveStyleState (dom st N_editorIframe) "save" (frame_styles E "left")).2 /\
     _elementStates st0 !! "previewerIframe"
     = Some (_saveStyleState (dom st N_previewerIframe) "save" (frame_styles E "right")).2)).
  { clear. subst st0. unfold element_styles, iframeElement_styles, frame_styles.
    destruct (nativeFs E); cbn [negb];
      rewrite ?update_node_states, ?save_styles_states;
      repeat first [ rewrite save_styles_dom_eq
                   | rewrite save_styles_dom_ne by discriminate
                   | rewrite update_node_dom_ne by discriminate
                   | rewrite lookup_insert_eq
                   | rewrite lookup_insert_ne by discriminate ];
      cbn [dom set_eeState]; repeat split. }
  destruct Hst0 as (Hnodes & Hstates). split; [exact Hnodes|]. split; [exact Hstates|].
  subst st0. destruct (nativeFs E); repeat split.
Qed.

(** The entry leaves every node under the style sheets it was under. *)
Lemma _goFullscreen_sheet (E : env) (st st1 : state) :
  _goFullscreen E st = Ok st1 -> forall n, sheet (dom st1 n) = sheet (dom st n).
Proof.
  unfold _goFullscreen. cbv zeta.
  match goal with
  | |- context [preview E (ArgBool true) false ?X] =>
      set (st0 := X);
      destruct (preview_spec E (ArgBool true) false st0) as (st' & Hrun & _ & Hdom & Hw & Hp & _)
  end.
  rewrite Hrun. cbn [mbind result_bind]. intros [= <-] n. cbn [dom set_live_keyup].
  cbn zeta in Hdom.
  assert (H0 : forall n, sheet (dom st0 n) = sheet (dom st n)).
  { clear. subst st0. intros n. destruct (nativeFs E); cbn [negb]; destruct n;
      repeat first [ rewrite save_styles_dom_eq
                   | rewrite save_styles_dom_ne by discriminate
                   | rewrite update_node_dom_eq
                   | rewrite update_node_dom_ne by discriminate ];
      rewrite ?sheet_applied; reflexivity. }
  destruct (decide (n = N_wrapper)) as [->|Hnw]; [rewrite Hw; exact (H0 _)|].
  destruct (decide (n = N_previewer)) as [->|Hnp]; [rewrite Hp; exact (H0 _)|].
  rewrite (Hdom n Hnw Hnp). apply H0.
Qed.

Lemma px_not_blank (t : string) : String.eqb (px t) "" = false.
Proof. unfold px. destruct t; reflexivity. Qed.

(** What the entry leaves in the properties that have one key. *)
Lemma _goFullscreen_layout (E : env) (st : state) :
  exists st1,
    _goFullscreen E st = Ok st1 /\
    _getStyle (dom st1 N_editorIframe) "display" = "block" /\
    _getStyle (dom st1 N_previewerIframe) "display" = "block" /\
    _getStyle (dom st1 N_element) "position" = "fixed".
Proof.
  destruct (_goFullscreen_nodes E st) as (st1 & Hgo & (He & _ & Hed & Hpr) & _).
  exists st1. split; [exact Hgo|].
  rewrite He, Hed, Hpr, !getStyle_applied.
  unfold element_styles, frame_styles. named_compute. repeat split.
Qed.

(** The exit after an entry, and after anything done in between that
    keeps the snapshots and the style sheets: a property with one key,
    its own name, has the value it had before the entry. *)
Lemma exit_restores (E : env) (st st1 st2 : state) :
  _goFullscreen E st = Ok st1 ->
  _elementStates st2 = _elementStates st1 ->
  (forall n, sheet (dom st2 n) = sheet (dom st n)) ->
  (forall p, p ∈ ["position"; "top"; "left"; "width"; "height"] ->
     _getStyle (dom (_exitFullscreen E st2) N_element) p = _getStyle (dom st N_element) p) /\
  (forall p, p ∈ ["width"; "height"] ->
     _getStyle (dom (_exitFullscreen E st2) N_iframeElement) p
     = _getStyle (dom st N_iframeElement) p) /\
  (forall p, p ∈ ["width"; "height"; "display"] ->
     _getStyle (dom (_exitFullscreen E st2) N_editorIframe) p
     = _getStyle (dom st N_editorIframe) p /\
     _getStyle (dom (_exitFullscreen E st2) N_previewerIframe) p
     = _getStyle (dom st N_previewerIframe) p) /\
  _getStyle (dom (_exitFullscreen E st2) N_element) "z-index"
  = sheet (dom st N_element) "z-index".
Proof.
  intros Hgo Hel Hsheet.
  destruct (_goFullscreen_nodes E st) as (st1' & Hgo' & _ & (Se & Si & Sed & Spr) & _).
  rewrite Hgo in Hgo'. injection Hgo' as <-.
  destruct (_exitFullscreen_nodes E st2) as (-> & -> & -> & -> & _).
  rewrite Hel, Se, Si, Sed, Spr. cbn [default from_option id].
  unfold element_styles, iframeElement_styles, frame_styles.
  split; [|split; [|split]].
  - intros p Hp. rewrite apply_snapshot by apply Hsheet.
    repeat (apply elem_of_cons in Hp as [-> | Hp]; [named_compute; reflexivity|]).
    apply elem_of_nil in Hp. contradiction.
  - intros p Hp. rewrite apply_snapshot by apply Hsheet.
    repeat (apply elem_of_cons in Hp as [-> | Hp]; [named_compute; reflexivity|]).
    apply elem_of_nil in Hp. contradiction.
  - intros p Hp. rewrite !apply_snapshot by apply Hsheet.
    repeat (apply elem_of_cons in Hp as [-> | Hp]; [named_compute; split; reflexivity|]).
    apply elem_of_nil in Hp. contradiction.
  - rewrite apply_snapshot by apply Hsheet. named_compute. reflexivity.
Qed.

(** X13: entering fullscreen and leaving it restores the layout, but for
    the z-index of the container. The entry returns and displays both
    frames; after the exit the position, the offsets and the size of the
    container, the size of the outer frame, and the size and the display
    of the two inner frames have the values they had before the entry.
    The container was given its z-index under two keys, [z-index] and
    [zIndex]; under the second [_getStyle] read the blank string, which
    the exit assigns last: the container ends with the z-index of the
    style sheets, whatever it had before the entry. *)
Theorem fullscreen_restores_styles (E : env) (st : state) :
  exists st1,
    _goFullscreen E st = Ok st1 /\
    _getStyle (dom st1 N_editorIframe) "display" = "block" /\
    _getStyle (dom st1 N_previewerIframe) "display" = "block" /\
    (forall p, p ∈ ["position"; "top"; "left"; "width"; "height"] ->
       _getStyle (dom (_exitFullscreen E st1) N_element) p
       = _getStyle (dom st N_element) p) /\
    (forall p, p ∈ ["width"; "height"] ->
       _getStyle (dom (_exitFullscreen E st1) N_iframeElement) p
       = _getStyle (dom st N_iframeElement) p) /\
    (forall p, p ∈ ["width"; "height"; "display"] ->
       _getStyle (dom (_exitFullscreen E st1) N_editorIframe) p
       = _getStyle (dom st N_editorIframe) p /\
       _getStyle (dom (_exitFullscreen E st1) N_previewerIframe) p
       = _getStyle (dom st N_previewerIframe) p) /\
    _getStyle (dom (_exitFullscreen E st1) N_element) "z-index"
    = sheet (dom st N_element) "z-index".
Proof.
  destruct (_goFullscreen_layout E st) as (st1 & Hgo & Hd1 & Hd2 & _).
  exists st1. split; [exact Hgo|]. split; [exact Hd1|]. split; [exact Hd2|].
  apply (exit_restores E st st1 st1 Hgo eq_refl).
  apply (_goFullscreen_sheet E st st1 Hgo).
Qed.

(** X14: a second entry before the exit overwrites the snapshots with the
    fullscreen layout itself: the exit then leaves both frames displayed
    and the container fixed, whatever the styles were before the first
    entry. *)
Theorem second_entry_loses_styles (E : env) (st : state) :
  exists st1 st2,
    _goFullscreen E st = Ok st1 /\
    _goFullscreen E st1 = Ok st2 /\
    _getStyle (dom (_exitFullscreen E st2) N_editorIframe) "display" = "block" /\
    _getStyle (dom (_exitFullscreen E st2) N_previewerIframe) "display" = "block" /\
    _getStyle (dom (_exitFullscreen E st2) N_element) "position" = "fixed".
Proof.
  destruct (_goFullscreen_layout E st) as (st1 & Hgo1 & Hd1 & Hd2 & Hpos).
  destruct (_goFullscreen_layout E st1) as (st2 & Hgo2 & _).
  exists st1, st2. split; [exact Hgo1|]. split; [exact Hgo2|].
  destruct (exit_restores E st1 st2 st2 Hgo2 eq_refl (_goFullscreen_sheet E st1 st2 Hgo2))
    as (He & _ & Hf & _).
  assert (Hin1 : "display" ∈ ["width"; "height"; "display"])
    by (rewrite !elem_of_cons; auto).
  assert (Hin2 : "position" ∈ ["position"; "top"; "left"; "width"; "height"])
    by (rewrite !elem_of_cons; auto).
  destruct (Hf "display" Hin1) as (Hf1 & Hf2).
  rewrite Hf1, Hf2, (He "position" Hin2).
  auto.
Qed.

Lemma step_isInEdit (E : env) (t : transition) (st st' : state) :
  step E t st = Ok st' -> _isInEdit st' = _isInEdit st.
Proof.
  destruct t; cbn [step]; intros Hstep.
  - destruct (preview_spec E ArgUndefined false st)
      as (st1 & H & _ & _ & _ & _ & _ & _ & _ & Hin & _).
    rewrite H in Hstep. injection Hstep as <-. exact Hin.
  - destruct (edit_spec st) as (st1 & H & _ & Hin & _).
    rewrite H in Hstep. injection Hstep as <-. exact Hin.
  - destruct (_goFullscreen_spec E st) as (st1 & H & _ & Hin & _).
    rewrite H in Hstep. injection Hstep as <-. exact Hin.
  - injection Hstep as <-. apply _exitFullscreen_spec.
Qed.

Lemma run_isInEdit (E : env) (ts : list transition) :
  forall st st', run E ts st = Ok st' -> _isInEdit st' = _isInEdit st.
Proof.
  induction ts as [|t ts IH]; intros st st'; cbn [run].
  - intros [= <-]. reflexivity.
  - destruct (step E t st) as [st1|e] eqn:Hstep; cbn [mbind result_bind]; [|discriminate].
    intros Hrun. rewrite (IH _ _ Hrun). exact (step_isInEdit _ _ _ _ Hstep).
Qed.

(** X15: in a loaded instance, whatever transitions were taken before,
    entering fullscreen and leaving it ends in edit mode: the mode held at
    the entry plays no part, since [_isInEdit] keeps the value [load] gave
    it. *)
Theorem exit_ends_in_edit_mode (E : env) (page : node -> element) (i : instance)
    (ls : storage) (st0 st : state) (ts : list transition) :
  load E page i ls = Ok st0 ->
  run E ts st0 = Ok st ->
  exists st1,
    _goFullscreen E st = Ok st1 /\
    eeState (_exitFullscreen E st1)
    = {| Flags.fullscreen := false; Flags.preview := false; Flags.edit := true |}.
Proof.
  intros Hload Hrun.
  destruct (load_initial E page i ls st0 Hload) as (_ & Hin & _).
  rewrite <- (run_isInEdit E ts st0 st Hrun) in Hin.
  destruct (_goFullscreen_spec E st) as (st1 & Hgo & Hflags & Hin1 & _).
  exists st1. split; [exact Hgo|].
  destruct (_exitFullscreen_spec E st1) as (Hexit & _).
  rewrite Hexit, Hin1, Hin, Hflags. reflexivity.
Qed.

Lemma exit_ends_in_edit_mode_witness :
  exists st0 st,
    boot = Ok st0 /\
    run browser [T_preview] st0 = Ok st /\
    Flags.preview (eeState st) = true /\
    exists st1,
      _goFullscreen browser st = Ok st1 /\
      eeState (_exitFullscreen browser st1)
      = {| Flags.fullscreen := false; Flags.preview := false; Flags.edit := true |}.
Proof.
  eexists. eexists. split; [vm_compute; reflexivity|].
  split; [vm_compute; reflexivity|]. split; [vm_compute; reflexivity|].
  eapply (exit_ends_in_edit_mode browser page
            (EpicEditor opts (Some ∅)).1 (EpicEditor opts (Some ∅)).2 _ _ [T_preview]).
  - vm_compute. reflexivity.
  - vm_compute. reflexivity.
Defined.

(** ** The theme link *)

Lemma set_href_found (href : string) (head : list link) (l : link) :
  getElementById "theme" head = Some l ->
  getElementById "theme" (set_href "theme" href head)
  = Some {| link_id := link_id l; link_href := href; link_name := link_name l |} /\
  link_id <$> set_href "theme" href head = link_id <$> head /\
  link_name <$> set_href "theme" href head = link_name <$> head.
Proof.
  unfold getElementById. induction head as [|x head IH]; [discriminate|].
  cbn [List.find set_href]. destruct (String.eqb (link_id x) "theme") eqn:Hx.
  - intros [= <-]. cbn [List.find link_id]. rewrite Hx. repeat split.
  - intros Hfind. destruct (IH Hfind) as (Hl & Hids & Hnames).
    cbn [List.find]. rewrite Hx. split; [exact Hl|].
    cbn [fmap list_fmap]. split; f_equal; assumption.
Qed.

(** The links of the previewer head after a call of [preview] that finds
    the theme link [l]; [t] is the path the call resolves its theme
    argument to. *)
Lemma preview_head_found (E : env) (theme : arg) (live : bool) (st : state) (l : link) :
  getElementById "theme" (previewer_head st) = Some l ->
  exists st',
    preview E theme live st = Ok st' /\
    previewer_head st' =
      let t := match theme with
               | ArgString t => if String.eqb t "" then
                   basePath (this_settings st) +:+ theme_preview (this_settings st) else t
               | _ => basePath (this_settings st) +:+ theme_preview (this_settings st)
               end in
      if negb (String.eqb (link_name l) t)
      then set_href "theme" t (previewer_head st)
      else previewer_head st.
Proof.
  intros Hl. unfold preview. rewrite get_wrapper. cbn [as_node mbind result_bind].
  rewrite (emit_total "preview") by (vm_compute; reflexivity).
  eexists. split; [reflexivity|].
  cbn [previewer_head update_node set_dom set_calls this_settings].
  rewrite Hl.
  destruct (match theme with ArgBool b => b | _ => live end);
    destruct theme as [|b|t]; cbv zeta;
    try destruct (String.eqb t ""); destruct (negb (String.eqb (link_name l) _));
    reflexivity.
Qed.

(** X16: once a theme link exists, [preview] never adds another: the links
    of the previewer head keep their ids and names, in order, whatever the
    theme argument; the link with the id [theme] is still found and keeps
    the name it was created with. *)
Theorem preview_keeps_one_theme_link (E : env) (theme : arg) (live : bool)
    (st : state) (l : link) :
  getElementById "theme" (previewer_head st) = Some l ->
  exists st' l',
    preview E theme live st = Ok st' /\
    link_id <$> previewer_head st' = link_id <$> previewer_head st /\
    link_name <$> previewer_head st' = link_name <$> previewer_head st /\
    getElementById "theme" (previewer_head st') = Some l' /\
    link_name l' = link_name l.
Proof.
  intros Hl. destruct (preview_head_found E theme live st l Hl) as (st' & Hrun & Hhead).
  cbv zeta in Hhead. destruct (negb _) in Hhead.
  - destruct (set_href_found
                match theme with
                | ArgString t => if String.eqb t "" then
                    basePath (this_settings st) +:+ theme_preview (this_settings st) else t
                | _ => basePath (this_settings st) +:+ theme_preview (this_settings st)
                end (previewer_head st) l Hl) as (Hfound & Hids & Hnames).
    eexists. eexists. split; [exact Hrun|]. rewrite Hhead.
    split; [exact Hids|]. split; [exact Hnames|]. split; [exact Hfound|]. reflexivity.
  - exists st', l. rewrite Hhead. repeat split; assumption.
Qed.

Lemma preview_keeps_one_theme_link_witness :
  exists st0 l,
    boot = Ok st0 /\
    getElementById "theme" (previewer_head st0) = Some l /\
    exists st' l',
      preview browser (ArgString "dark.css") false st0 = Ok st' /\
      link_id <$> previewer_head st' = link_id <$> previewer_head st0 /\
      link_name <$> previewer_head st' = link_name <$> previewer_head st0 /\
      getElementById "theme" (previewer_head st') = Some l' /\
      link_name l' = link_name l.
Proof.
  eexists. eexists. split; [vm_compute; reflexivity|].
  split; [vm_compute; reflexivity|].
  apply preview_keeps_one_theme_link. vm_compute. reflexivity.
Defined.

(** X17: the theme link keeps the name of the theme it was created with,
    and [preview] compares the theme asked for with that name. So after a
    preview with another theme [t], which puts [t] in the [href] of the
    link, a preview that asks for the first theme again changes nothing:
    the [href] stays [t]. *)
Theorem theme_switch_back_is_stale (E : env) (st : state) (l : link) (t : string)
    (live1 live2 : bool) :
  getElementById "theme" (previewer_head st) = Some l ->
  t <> "" ->
  t <> link_name l ->
  link_name l <> "" ->
  exists st1 st2,
    preview E (ArgString t) live1 st = Ok st1 /\
    link_href <$> getElementById "theme" (previewer_head st1) = Some t /\
    preview E (ArgString (link_name l)) live2 st1 = Ok st2 /\
    link_href <$> getElementById "theme" (previewer_head st2) = Some t.
Proof.
  intros Hl Ht Hdiff Hname.
  destruct (preview_head_found E (ArgString t) live1 st l Hl) as (st1 & Hrun1 & Hhead1).
  cbv zeta in Hhead1.
  apply String.eqb_neq in Ht. rewrite Ht in Hhead1.
  assert (Hne : String.eqb (link_name l) t = false)
    by (apply String.eqb_neq; congruence).
  rewrite Hne in Hhead1. cbn [negb] in Hhead1.
  destruct (set_href_found t (previewer_head st) l Hl) as (Hfound & _).
  rewrite <- Hhead1 in Hfound.
  destruct (preview_head_found E (ArgString (link_name l)) live2 st1 _ Hfound)
    as (st2 & Hrun2 & Hhead2).
  cbv zeta in Hhead2. cbn [link_name] in Hhead2.
  apply String.eqb_neq in Hname. rewrite Hname, String.eqb_refl in Hhead2.
  cbn [negb] in Hhead2.
  exists st1, st2. split; [exact Hrun1|]. rewrite Hhead2, Hfound.
  repeat split. exact Hrun2.
Qed.

Lemma theme_switch_back_is_stale_witness :
  exists st0 l,
    boot = Ok st0 /\
    getElementById "theme" (previewer_head st0) = Some l /\
    exists st1 st2,
      preview browser (ArgString "dark.css") false st0 = Ok st1 /\
      link_href <$> getElementById "theme" (previewer_head st1) = Some "dark.css" /\
      preview browser (ArgString (link_name l)) false st1 = Ok st2 /\
      link_href <$> getElementById "theme" (previewer_head st2) = Some "dark.css".
Proof.
  eexists. eexists. split; [vm_compute; reflexivity|].
  split; [vm_compute; reflexivity|].
  apply theme_switch_back_is_stale.
  - vm_compute. reflexivity.
  - discriminate.
  - vm_compute. discriminate.
  - vm_compute. discriminate.
Defined.

(** ** The live listeners *)

Lemma live_preview_invokes (E : env) (n : nat) :
  forall st, exists st',
    live_preview E n st = Ok st' /\
    calls st' = (calls st ++ List.concat (List.repeat (preview_calls st) n))%list /\
    events st' = events st /\
    isMod st' = isMod st /\ isCtrl st' = isCtrl st.
Proof.
  induction n as [|n IH]; intros st.
  - exists st. cbn. rewrite app_nil_r. repeat split.
  - destruct (preview_spec E (ArgBool true) false st)
      as (st1 & Hrun & _ & _ & _ & _ & _ & Hev & _ & _ & _ & Hm & Hc & _).
    pose proof (preview_invokes _ _ _ _ _ Hrun) as Hcalls.
    destruct (IH st1) as (st' & Hrest & Hcalls' & Hev' & Hm' & Hc').
    exists st'. cbn [live_preview]. rewrite Hrun. cbn [mbind result_bind].
    split; [exact Hrest|]. rewrite Hcalls', Hcalls, Hev', Hm', Hc'.
    unfold preview_calls at 2. rewrite Hev. fold (preview_calls st).
    cbn [List.repeat List.concat]. rewrite <- app_assoc. repeat split; assumption.
Qed.

(** X18: the listener that an entry into fullscreen puts on the editor
    stays there after the exit. After one entry and exit, a key release in
    the editor renders the preview once more often than it did before the
    entry: every handler of [preview] is invoked that many times. *)
Theorem live_listener_outlives_fullscreen (E : env) (keyCode : Z) (st : state) :
  exists st1 st2,
    _goFullscreen E st = Ok st1 /\
    editor_keyup E keyCode (_exitFullscreen E st1) = Ok st2 /\
    calls st2
    = (calls st1 ++ List.concat (List.repeat (preview_calls st) (S (live_keyup st))))%list.
Proof.
  destruct (_goFullscreen_nodes E st) as (st1 & Hgo & _ & _ & Hlive & Hev & _).
  destruct (_exitFullscreen_nodes E st1) as (_ & _ & _ & _ & Hlive' & Hev' & Hcalls').
  destruct (live_preview_invokes E (live_keyup (_exitFullscreen E st1)) (_exitFullscreen E st1))
    as (st2 & Hrun & Hcalls & _).
  exists st1. eexists. split; [exact Hgo|].
  unfold editor_keyup. rewrite Hrun. cbn [mbind result_bind]. split; [reflexivity|].
  assert (Hup : forall s, calls (shortcutUpHandler keyCode s) = calls s).
  { intros s. unfold shortcutUpHandler.
    destruct (_ =? shortcut_modifier _)%Z; destruct (_ =? 17)%Z; reflexivity. }
  rewrite Hup, Hcalls, Hcalls', Hlive', Hlive.
  unfold preview_calls. rewrite Hev', Hev. reflexivity.
Qed.

(** ** The keyboard *)

(** X19: a key press while the modifier is not held, of a key that is
    neither the modifier nor Ctrl nor Esc, changes nothing. In particular
    Ctrl+S, whose default action the handler prevents, saves nothing. *)
Theorem key_without_modifier (E : env) (keyCode : Z) (st : state) :
  isMod st = false ->
  keyCode <> shortcut_modifier (this_settings st) ->
  keyCode <> 17%Z ->
  keyCode <> 27%Z ->
  shortcutHandler E keyCode st = Ok st.
Proof.
  intros Hmod Hm Hc He. unfold shortcutHandler.
  apply Z.eqb_neq in Hm, Hc, He. rewrite Hm, Hc. cbv zeta. rewrite Hmod.
  cbn [andb mbind result_bind]. rewrite Hmod. cbn [andb mbind result_bind].
  rewrite Hmod, He. reflexivity.
Qed.

Lemma key_without_modifier_witness :
  exists st0, boot = Ok st0 /\ shortcutHandler browser 83 st0 = Ok st0.
Proof.
  eexists. split; [vm_compute; reflexivity|].
  apply key_without_modifier.
  - vm_compute. reflexivity.
  - vm_compute. discriminate.
  - discriminate.
  - discriminate.
Defined.

(** [shortcutHandler] after its first two statements, which record the
    modifier and Ctrl: the state [s] they leave, and the rest of the handler
    on it. *)
Lemma shortcutHandler_keys (E : env) (keyCode : Z) (st : state) :
  exists s,
    this_settings s = this_settings st /\
    eeState s = eeState st /\
    isMod s = (if (keyCode =? shortcut_modifier (this_settings st))%Z then true
               else isMod st) /\
    shortcutHandler E keyCode st =
      (st ← (if isMod s && (keyCode =? shortcut_preview (this_settings s))%Z
                && negb (Flags.fullscreen (eeState s))
             then preview E ArgUndefined false s else Ok s);
       st ← (if isMod st && (keyCode =? shortcut_edit (this_settings st))%Z
             then if negb (Flags.fullscreen (eeState st)) then edit st else Ok st
             else Ok st);
       st ← (if isMod st && (keyCode =? shortcut_fullscreen (this_settings st))%Z
             then _goFullscreen E st else Ok st);
       Ok (if (keyCode =? 27)%Z && Flags.fullscreen (eeState st)
           then if negb (nativeFs E) then _exitFullscreen E st else st
           else st)).
Proof.
  unfold shortcutHandler. eexists. split; [|split; [|split; [|reflexivity]]].
  - destruct (keyCode =? shortcut_modifier _)%Z; destruct (keyCode =? 17)%Z; reflexivity.
  - destruct (keyCode =? shortcut_modifier _)%Z; destruct (keyCode =? 17)%Z; reflexivity.
  - destruct (keyCode =? shortcut_modifier _)%Z; destruct (keyCode =? 17)%Z; reflexivity.
Qed.

(** X20: the modifier is remembered from its press on. Outside
    fullscreen, with the modifier key distinct from the three shortcut
    keys and the preview key distinct from the other two, pressing the
    modifier changes no flag, and pressing the preview key after it puts
    the instance in preview mode. *)
Theorem modifier_then_preview_key (E : env) (st : state) :
  Flags.fullscreen (eeState st) = false ->
  shortcut_modifier (this_settings st) <> shortcut_preview (this_settings st) ->
  shortcut_modifier (this_settings st) <> shortcut_edit (this_settings st) ->
  shortcut_modifier (this_settings st) <> shortcut_fullscreen (this_settings st) ->
  shortcut_preview (this_settings st) <> shortcut_edit (this_settings st) ->
  shortcut_preview (this_settings st) <> shortcut_fullscreen (this_settings st) ->
  exists st1 st2,
    shortcutHandler E (shortcut_modifier (this_settings st)) st = Ok st1 /\
    eeState st1 = eeState st /\ isMod st1 = true /\
    shortcutHandler E (shortcut_preview (this_settings st)) st1 = Ok st2 /\
    eeState st2 = {| Flags.fullscreen := false; Flags.preview := true;
                     Flags.edit := false |}.
Proof.
  intros Hfs Hmp Hme Hmf Hpe Hpf.
  apply Z.eqb_neq in Hmp, Hme, Hmf, Hpe, Hpf.
  destruct (shortcutHandler_keys E (shortcut_modifier (this_settings st)) st)
    as (s & Hset & Hflags & Hmod & Hrun).
  rewrite Z.eqb_refl in Hmod.
  rewrite ?Hset, ?Hflags, ?Hmod, ?Hmp, ?Hfs in Hrun. cbn [andb mbind result_bind] in Hrun.
  rewrite ?Hset, ?Hflags, ?Hmod, ?Hme, ?Hfs in Hrun. cbn [andb mbind result_bind] in Hrun.
  rewrite ?Hset, ?Hflags, ?Hmod, ?Hmf, ?Hfs in Hrun.
  cbn [andb mbind result_bind] in Hrun.
  rewrite ?Hflags, ?Hfs, ?andb_false_r in Hrun.
  exists s.
  destruct (shortcutHandler_keys E (shortcut_preview (this_settings st)) s)
    as (s' & Hset' & Hflags' & Hmod' & Hrun').
  rewrite Hmod in Hmod'.
  assert (Hmod'' : isMod s' = true).
  { rewrite Hmod'. destruct (shortcut_preview _ =? shortcut_modifier _)%Z; reflexivity. }
  rewrite ?Hset', ?Hflags', ?Hmod'', ?Hset, ?Hflags, ?Z.eqb_refl, ?Hfs in Hrun'.
  cbn [andb negb] in Hrun'.
  destruct (preview_spec E ArgUndefined false s')
    as (st2 & Hprev & Hflags2 & _ & _ & _ & Hset2 & _ & _ & _ & _ & Hmod2 & _).
  cbn in Hflags2. rewrite Hflags', Hflags, Hfs in Hflags2.
  rewrite ?Hprev in Hrun'. cbn [mbind result_bind] in Hrun'.
  rewrite ?Hset2, ?Hset', ?Hset, ?Hpe, ?andb_false_r in Hrun'.
  cbn [mbind result_bind] in Hrun'.
  rewrite ?Hset2, ?Hset', ?Hset, ?Hpf, ?andb_false_r in Hrun'.
  cbn [mbind result_bind] in Hrun'.
  rewrite ?Hflags2 in Hrun'. cbn [Flags.fullscreen] in Hrun'.
  rewrite ?andb_false_r in Hrun'.
  exists st2. repeat split; assumption.
Qed.

Lemma modifier_then_preview_key_witness :
  exists st0,
    boot = Ok st0 /\
    exists st1 st2,
      shortcutHandler browser (shortcut_modifier (this_settings st0)) st0 = Ok st1 /\
      eeState st1 = eeState st0 /\ isMod st1 = true /\
      shortcutHandler browser (shortcut_preview (this_settings st0)) st1 = Ok st2 /\
      eeState st2 = {| Flags.fullscreen := false; Flags.preview := true;
                       Flags.edit := false |}.
Proof.
  eexists. split; [vm_compute; reflexivity|].
  apply modifier_then_preview_key; vm_compute; (reflexivity || discriminate).
Defined.

(** X21: Esc in fullscreen, with the modifier not held and not itself the
    Esc key: where the browser has no native fullscreen the handler leaves
    fullscreen; where it has, the handler changes nothing and leaves the
    exit to the browser. *)
Theorem escape_key (E : env) (st : state) :
  isMod st = false ->
  shortcut_modifier (this_settings st) <> 27%Z ->
  Flags.fullscreen (eeState st) = true ->
  shortcutHandler E 27 st = Ok (if nativeFs E then st else _exitFullscreen E st).
Proof.
  intros Hmod Hm Hfs. unfold shortcutHandler.
  assert (Hm' : (27 =? shortcut_modifier (this_settings st))%Z = false)
    by (apply Z.eqb_neq; congruence).
  rewrite Hm'. change (27 =? 17)%Z with false. cbv zeta. rewrite Hmod.
  cbn [andb mbind result_bind]. rewrite ?Hmod. cbn [andb mbind result_bind].
  rewrite ?Hmod, ?Hfs. cbn [andb mbind result_bind]. rewrite ?Hmod, ?Hfs.
  change (27 =? 27)%Z with true. cbn [andb mbind result_bind]. rewrite ?Hfs.
  destruct (nativeFs E); reflexivity.
Qed.

Lemma escape_key_witness :
  exists st0,
    (st ← boot; _goFullscreen browser st) = Ok st0 /\
    shortcutHandler browser 27 st0
    = Ok (if nativeFs browser then st0 else _exitFullscreen browser st0).
Proof.
  eexists. split; [vm_compute; reflexivity|].
  apply escape_key; vm_compute; (reflexivity || discriminate).
Defined.

(** ** The pointer and the utility bar *)

Lemma utilBarHandler_near (x y : Z) (p : pointer) (st : state) :
  (Z.abs (mousePos_y p - y) <? 5)%Z = true ->
  (Z.abs (mousePos_x p - x) <? 5)%Z = true ->
  utilBarHandler x y (p, st)
  = ({| mousePos_y := y; mousePos_x := x; utilBarTimer := utilBarTimer p;
        timers := timers p; next_handle := next_handle p |}, st).
Proof.
  intros Hy Hx. unfold utilBarHandler.
  apply Z.ltb_lt in Hy, Hx.
  assert (H1 : (5 <=? Z.abs (mousePos_y p - y))%Z = false) by (apply Z.leb_gt; exact Hy).
  assert (H2 : (5 <=? Z.abs (mousePos_x p - x))%Z = false) by (apply Z.leb_gt; exact Hx).
  rewrite H1, H2. reflexivity.
Qed.

(** X22: a pointer that drifts never shows the bar. When every move stays
    within less than five pixels, in both axes, of the position recorded
    by the move before it, no move changes the page or starts a timer,
    however far the pointer gets in the end: the handler measures each
    move against the last position, which it records on every move. *)
Theorem drifting_pointer_never_shows (moves : list (Z * Z)) :
  forall (p : pointer) (st : state),
    slow (mousePos_y p) (mousePos_x p) moves = true ->
    (pointer_run ((fun m => Move m.1 m.2) <$> moves) (p, st)).2 = st /\
    timers (pointer_run ((fun m => Move m.1 m.2) <$> moves) (p, st)).1 = timers p /\
    utilBarTimer (pointer_run ((fun m => Move m.1 m.2) <$> moves) (p, st)).1
    = utilBarTimer p.
Proof.
  induction moves as [|[x y] moves IH]; intros p st Hslow.
  - repeat split.
  - cbn [slow] in Hslow.
    apply andb_true_iff in Hslow as [Hslow Hrest].
    apply andb_true_iff in Hslow as [Hy Hx].
    cbn [fmap list_fmap pointer_run fold_left pointer_step fst snd].
    rewrite (utilBarHandler_near x y p st Hy Hx).
    apply (IH {| mousePos_y := y; mousePos_x := x; utilBarTimer := utilBarTimer p;
                 timers := timers p; next_handle := next_handle p |} st).
    exact Hrest.
Qed.

Lemma drifting_pointer_never_shows_witness :
  exists st0,
    boot = Ok st0 /\
    (pointer_run ((fun m => Move m.1 m.2) <$> [(3%Z, 3%Z); (7%Z, 7%Z); (11%Z, 10%Z); (15%Z, 14%Z); (19%Z, 18%Z)])
       (pointer_init, st0)).2 = st0 /\
    timers (pointer_run ((fun m => Move m.1 m.2)
                           <$> [(3%Z, 3%Z); (7%Z, 7%Z); (11%Z, 10%Z); (15%Z, 14%Z); (19%Z, 18%Z)])
              (pointer_init, st0)).1 = timers pointer_init /\
    utilBarTimer (pointer_run ((fun m => Move m.1 m.2)
                                 <$> [(3%Z, 3%Z); (7%Z, 7%Z); (11%Z, 10%Z); (15%Z, 14%Z); (19%Z, 18%Z)])
                    (pointer_init, st0)).1 = utilBarTimer pointer_init.
Proof.
  eexists. split; [vm_compute; reflexivity|].
  apply drifting_pointer_never_shows. vm_compute. reflexivity.
Defined.

Lemma clearTimeout_single (id : nat) : clearTimeout id [id] = [].
Proof. unfold clearTimeout. cbn. rewrite Nat.eqb_refl. reflexivity. Qed.

Lemma getStyle_set_display (v : string) (e : element) :
  v <> "" -> _getStyle (set_display v e) "display" = v.
Proof.
  intros Hv. unfold _getStyle, set_display.
  change (has_upper "display") with false. cbn [style set_style].
  rewrite lookup_insert_eq. apply String.eqb_neq in Hv. rewrite Hv. reflexivity.
Qed.

Lemma pointer_step_bar_ok (e : pointer_event) (ps : pointer * state) :
  bar_ok ps = true -> bar_ok (pointer_step e ps) = true.
Proof.
  destruct ps as [p st]. destruct e as [x y|id]; cbn [pointer_step].
  - unfold utilBarHandler.
    destruct ((5 <=? Z.abs (mousePos_y p - y))%Z || (5 <=? Z.abs (mousePos_x p - x))%Z).
    + unfold bar_ok. cbn [fst snd timers utilBarTimer].
      destruct (timers p) as [|t [|t' ts]]; [| |discriminate].
      * intros _. destruct (utilBarTimer p); cbn; rewrite Nat.eqb_refl; reflexivity.
      * destruct (utilBarTimer p) as [t'|]; [|discriminate].
        intros Ht. apply Nat.eqb_eq in Ht. subst t'.
        rewrite clearTimeout_single. cbn. rewrite Nat.eqb_refl. reflexivity.
    + intros H. exact H.
  - unfold timeout. destruct (existsb (Nat.eqb id) (timers p)) eqn:Hin; [|intros H; exact H].
    unfold bar_ok. cbn [fst snd timers utilBarTimer].
    destruct (timers p) as [|t [|t' ts]]; [discriminate| |discriminate].
    cbn in Hin. rewrite orb_false_r in Hin. apply Nat.eqb_eq in Hin. subst t.
    intros _. rewrite clearTimeout_single.
    rewrite update_node_dom_eq, getStyle_set_display by discriminate. reflexivity.
Qed.

Lemma load_utilbar_hidden (E : env) (page : node -> element) (i : instance)
    (ls : storage) (st : state) :
  load E page i ls = Ok st -> _getStyle (dom st N_utilbar) "display" = "none".
Proof.
  unfold load.
  match goal with
  | |- context [open E ?n ?X] => destruct (open E n X) as [st1|e] eqn:Hopen
  end; cbn [mbind result_bind]; [|discriminate].
  emit_step. intros [= <-].
  cbn [dom set_calls]. rewrite update_node_dom_eq, getStyle_set_display by discriminate.
  reflexivity.
Qed.

(** X23: from a loaded instance on, whatever the pointer does and whenever
    the timeouts fire, the bar is never shown without a timeout pending to
    hide it, and never more than one timeout is pending. *)
Theorem utility_bar_always_hides (E : env) (page : node -> element) (i : instance)
    (ls : storage) (st0 : state) (es : list pointer_event) :
  load E page i ls = Ok st0 ->
  bar_ok (pointer_run es (pointer_init, st0)) = true.
Proof.
  intros Hload.
  assert (Hinit : bar_ok (pointer_init, st0) = true).
  { unfold bar_ok. cbn [fst snd timers pointer_init].
    rewrite (load_utilbar_hidden _ _ _ _ _ Hload). reflexivity. }
  revert Hinit. generalize (pointer_init, st0). unfold pointer_run.
  induction es as [|e es IH]; intros ps Hok; [exact Hok|].
  cbn [fold_left]. apply IH. apply pointer_step_bar_ok. exact Hok.
Qed.

Lemma utility_bar_always_hides_witness :
  exists st0,
    boot = Ok st0 /\
    bar_ok (pointer_run [Move 40 40; Move 42 41; Move 90 90; Fire 1; Fire 2; Move 200 10]
              (pointer_init, st0)) = true.
Proof.
  eexists. split; [vm_compute; reflexivity|].
  apply (utility_bar_always_hides browser page
           (EpicEditor opts (Some ∅)).1 (EpicEditor opts (Some ∅)).2).
  vm_compute. reflexivity.
Defined.

(** X24: a move of five pixels or more in one axis shows the bar and
    leaves exactly one timeout pending, a fresh one, cancelling the one
    that was pending; when that timeout fires the bar is hidden and no
    timeout is left. *)
Theorem far_move_shows_then_hides (x y : Z) (p : pointer) (st : state) :
  bar_ok (p, st) = true ->
  (5 <=? Z.abs (mousePos_y p - y))%Z || (5 <=? Z.abs (mousePos_x p - x))%Z = true ->
  _getStyle (dom (utilBarHandler x y (p, st)).2 N_utilbar) "display" = "block" /\
  timers (utilBarHandler x y (p, st)).1 = [S (next_handle p)] /\
  _getStyle (dom (timeout (S (next_handle p)) (utilBarHandler x y (p, st))).2 N_utilbar)
    "display" = "none" /\
  timers (timeout (S (next_handle p)) (utilBarHandler x y (p, st))).1 = [].
Proof.
  intros Hok Hfar. unfold utilBarHandler. rewrite Hfar.
  assert (Hts : match utilBarTimer p with
                | Some id => clearTimeout id (timers p)
                | None => timers p
                end = []).
  { unfold bar_ok in Hok. cbn [fst snd] in Hok.
    destruct (timers p) as [|t [|t' ts]]; [| |discriminate].
    - destruct (utilBarTimer p); reflexivity.
    - destruct (utilBarTimer p) as [t'|]; [|discriminate].
      apply Nat.eqb_eq in Hok. subst t'. apply clearTimeout_single. }
  cbv zeta. rewrite Hts. cbn [fst snd timers app].
  unfold timeout. cbn [timers existsb]. rewrite Nat.eqb_refl. cbn [orb fst snd timers].
  rewrite clearTimeout_single, !update_node_dom_eq, !getStyle_set_display by discriminate.
  repeat split.
Qed.

Lemma far_move_shows_then_hides_witness :
  exists st0,
    boot = Ok st0 /\
    _getStyle (dom (utilBarHandler 100 100 (pointer_init, st0)).2 N_utilbar) "display"
    = "block" /\
    timers (utilBarHandler 100 100 (pointer_init, st0)).1 = [S (next_handle pointer_init)] /\
    _getStyle (dom (timeout (S (next_handle pointer_init))
                      (utilBarHandler 100 100 (pointer_init, st0))).2 N_utilbar)
      "display" = "none" /\
    timers (timeout (S (next_handle pointer_init))
              (utilBarHandler 100 100 (pointer_init, st0))).1 = [].
Proof.
  eexists. split; [vm_compute; reflexivity|].
  apply far_move_shows_then_hides; vm_compute; reflexivity.
Defined.

(** ** The content argument of [importFile] *)

Lemma same_but_value_refl (st : state) : same_but_value st st.
Proof. repeat split. Qed.

Lemma same_result_refl (r : result state) : same_result r r.
Proof. destruct r; cbn; [apply same_but_value_refl|reflexivity]. Qed.

Lemma _getText_same (E : env) (r : bool) (e e' : element) :
  set_value JUndefined e = set_value JUndefined e' -> _getText E r e = _getText E r e'.
Proof.
  unfold set_value. intros [= Hc Ht Hh Hs]. unfold _getText. rewrite Ht, Hh. reflexivity.
Qed.

Lemma getStyle_same (e e' : element) (p : string) :
  set_value JUndefined e = set_value JUndefined e' -> _getStyle e p = _getStyle e' p.
Proof.
  unfold set_value. intros [= Hc Ht Hh Hs Hsh]. unfold _getStyle.
  rewrite Hs, Hsh. reflexivity.
Qed.

Lemma rendered_same (st st' : state) :
  set_value JUndefined (dom st N_editorIframe) = set_value JUndefined (dom st' N_editorIframe) ->
  rendered st = rendered st'.
Proof. intros H. unfold rendered. rewrite (getStyle_same _ _ _ H). reflexivity. Qed.

Lemma emit_same (ev : string) (st st' : state) :
  same_but_value st st' -> same_result (emit ev st) (emit ev st').
Proof.
  intros (Hs & He & Hf & Hd & Hp & Hl & Hi & Hes & Hm & Hc & Hk & Hcs).
  unfold emit. rewrite He.
  destruct (js_lookup (events st') ev); cbn; [|reflexivity|];
    repeat split; cbn; first [assumption | congruence].
Qed.

Lemma save_same (E : env) (file content : option string) (st st' : state) :
  same_but_value st st' -> same_result (save E file content st) (save E file content st').
Proof.
  intros Hsame.
  pose proof Hsame as (Hs & He & Hf & Hd & Hp & Hl & Hi & Hes & Hm & Hc & Hk & Hcs).
  unfold save, read_files, write_files.
  rewrite Hs, Hl, (_getText_same E _ _ _ (Hd N_editor)),
    (rendered_same _ _ (Hd N_editorIframe)).
  destruct (localStorage st') as [items|]; cbn [mbind result_bind same_result]; [|reflexivity].
  destruct (items !! _); cbn [mbind result_bind same_result]; [|reflexivity].
  rewrite ?Hs, ?Hl. cbn [mbind result_bind].
  apply emit_same. repeat split; cbn; first [assumption | congruence].
Qed.

Lemma _setText_same (E : env) (e e' : element) (v : jsval) :
  set_value JUndefined e = set_value JUndefined e' ->
  match _setText E e v, _setText E e' v with
  | Ok a, Ok a' => set_value JUndefined a = set_value JUndefined a'
  | Throw x, Throw x' => x = x'
  | _, _ => False
  end.
Proof.
  unfold set_value. intros [= Hc Ht Hh Hs]. unfold _setText.
  destruct (hasInnerText E).
  - unfold set_value, set_innerText. cbn. congruence.
  - destruct v; try reflexivity. unfold set_value, set_innerHTML. cbn. congruence.
Qed.

Lemma open_same (E : env) (name : option string) (st st' : state) :
  same_but_value st st' -> same_result (open E name st) (open E name st').
Proof.
  intros Hsame.
  pose proof Hsame as (Hs & He & Hf & Hd & Hp & Hl & Hi & Hes & Hm & Hc & Hk & Hcs).
  unfold open. rewrite Hs, Hl.
  destruct (localStorage st') as [items|] eqn:Hl'; [|exact Hsame].
  destruct (items !! _) as [blob|]; [|exact Hsame].
  cbv zeta.
  match goal with
  | |- context [truthy ?X] => destruct (truthy X)
  end;
  (match goal with
   | |- context [_setText ?E' (dom st N_editor) ?V] =>
       pose proof (_setText_same E' _ _ V (Hd N_editor)) as Hset;
       destruct (_setText E' (dom st N_editor) V) as [a|x];
       destruct (_setText E' (dom st' N_editor) V) as [a'|x'];
       try contradiction; cbn [mbind result_bind same_result]; [|exact Hset]
   end);
  (apply emit_same; repeat split;
   cbn [this_settings events eeState dom previewer_head localStorage _isInEdit
        _elementStates isMod isCtrl live_keyup calls update_node set_dom set_settings];
   rewrite ?Hs; try first [assumption | congruence]);
  (intros n; unfold exportHTML, rendered; cbn [dom set_settings set_dom update_node];
   destruct n;
   rewrite ?fn_lookup_insert, ?fn_lookup_insert_ne by discriminate;
   rewrite ?(_getText_same E _ _ _ Hset),
           ?(getStyle_same _ _ "display" (Hd N_editorIframe));
   try exact Hset; try apply Hd;
   pose proof (Hd N_previewer) as Hpv; revert Hpv;
   unfold set_value, set_innerHTML; cbn; congruence).
Qed.

(** X25: the content argument of [importFile] reaches nothing but the
    [value] property of the editor body. Whatever the name, the content
    and the state, [importFile(name, content)] throws or returns as
    [open(name)], [save()], [open(name)] in a row do, with the same
    storage, settings, handlers invoked, and the same class, texts and
    styles in every node; where it returns, [value] holds the content. *)
Theorem importFile_content_only_in_value (E : env) (name content : option string)
    (st : state) :
  same_result (importFile E name content st)
    (st ← open E name st; st ← save E None None st; open E name st) /\
  match importFile E name content st with
  | Ok st' => value (dom st' N_editor) = JString (or_default content "")
  | Throw _ => True
  end.
Proof.
  unfold importFile. cbv zeta.
  destruct (open E name st) as [st1|e]; cbn [mbind result_bind]; [|split; [reflexivity|exact I]].
  rewrite get_editor. cbn [as_node mbind result_bind].
  set (st1' := update_node N_editor (set_value (JString (or_default content ""))) st1).
  assert (Hsame : same_but_value st1' st1).
  { subst st1'. repeat split. intros n. cbn [dom update_node set_dom].
    destruct n; rewrite ?fn_lookup_insert, ?fn_lookup_insert_ne by discriminate;
      reflexivity. }
  assert (Hval : value (dom st1' N_editor) = JString (or_default content "")).
  { subst st1'. cbn [dom update_node set_dom]. rewrite fn_lookup_insert. reflexivity. }
  pose proof (save_same E None None _ _ Hsame) as Hsave.
  assert (Hsv : forall st2, save E None None st1' = Ok st2 ->
                            value (dom st2 N_editor) = JString (or_default content "")).
  { intros st2. unfold save, read_files, write_files.
    destruct (localStorage st1') as [items|] eqn:Hl; [|discriminate].
    destruct (items !! _); cbn [mbind result_bind]; [|discriminate].
    rewrite ?Hl. cbn [mbind result_bind]. unfold emit.
    destruct (js_lookup _ _); intros [= <-]; exact Hval. }
  destruct (save E None None st1') as [st2|e2];
    destruct (save E None None st1) as [st2'|e2']; cbn [same_result] in Hsave;
    try contradiction; cbn [mbind result_bind]; [|split; [exact Hsave|exact I]].
  split; [apply open_same; exact Hsave|].
  specialize (Hsv st2 eq_refl).
  unfold open. destruct (localStorage st2) as [items|]; [|exact Hsv].
  destruct (items !! _) as [blob|]; [|exact Hsv].
  cbv zeta. unfold _setText.
  destruct (truthy _); destruct (hasInnerText E); cbn [mbind result_bind].
  all: repeat match goal with
       | |- context [match ?V with JString _ => _ | _ => _ end] =>
           destruct V; cbn [mbind result_bind]; try exact I
       end.
  all: unfold emit; destruct (js_lookup _ _); try exact I;
    cbn [dom set_calls update_node set_dom set_settings];
    rewrite fn_lookup_insert_ne by discriminate; rewrite fn_lookup_insert;
    exact Hsv.
Qed.

(** ** The window is resized in fullscreen *)

(** The listener keeps the snapshots, and leaves every node under the
    style sheets it was under. *)
Lemma resize_frame (E : env) (documentFs : bool) (st : state) :
  _elementStates (resize E documentFs st) = _elementStates st /\
  forall n, sheet (dom (resize E documentFs st) n) = sheet (dom st n).
Proof.
  unfold resize. destruct (negb documentFs && Flags.fullscreen (eeState st));
    [|split; reflexivity].
  split; [reflexivity|]. intros n. destruct n;
    repeat first [ rewrite update_node_dom_eq
                 | rewrite update_node_dom_ne by discriminate ];
    rewrite ?sheet_applied; reflexivity.
Qed.

(** In fullscreen, with a document that has no [webkitRequestFullScreen],
    the listener gives the outer frame the size of the window. *)
Lemma resize_outer_frame (E : env) (st : state) :
  Flags.fullscreen (eeState st) = true ->
  _getStyle (dom (resize E false st) N_iframeElement) "width"
  = px (number_text (outerWidth E)) /\
  _getStyle (dom (resize E false st) N_iframeElement) "height"
  = px (number_text (innerHeight E)).
Proof.
  intros Hfs. unfold resize. rewrite Hfs. cbn [negb andb].
  repeat first [ rewrite update_node_dom_eq
               | rewrite update_node_dom_ne by discriminate ].
  rewrite !getStyle_applied. named_compute. cbn [fst snd].
  rewrite !px_not_blank. split; reflexivity.
Qed.

(** X26: a resize of the window in fullscreen does not disturb the way
    out. After an entry into fullscreen, the [resize] listener, run in a
    document without [webkitRequestFullScreen], gives the outer frame the
    width and the height of the window as it is by then. Whether or not
    the listener did anything, the exit then gives the position, the
    offsets and the size of the container, the size of the outer frame,
    and the size and the display of the two inner frames the values they
    had before the entry; the z-index of the container is the one of the
    style sheets, as after an exit without a resize. *)
Theorem resize_then_exit_restores (E E' : env) (documentFs : bool) (st : state) :
  exists st1,
    _goFullscreen E st = Ok st1 /\
    (_getStyle (dom (resize E' false st1) N_iframeElement) "width"
     = px (number_text (outerWidth E')) /\
     _getStyle (dom (resize E' false st1) N_iframeElement) "height"
     = px (number_text (innerHeight E'))) /\
    (forall p, p ∈ ["position"; "top"; "left"; "width"; "height"] ->
       _getStyle (dom (_exitFullscreen E (resize E' documentFs st1)) N_element) p
       = _getStyle (dom st N_element) p) /\
    (forall p, p ∈ ["width"; "height"] ->
       _getStyle (dom (_exitFullscreen E (resize E' documentFs st1)) N_iframeElement) p
       = _getStyle (dom st N_iframeElement) p) /\
    (forall p, p ∈ ["width"; "height"; "display"] ->
       _getStyle (dom (_exitFullscreen E (resize E' documentFs st1)) N_editorIframe) p
       = _getStyle (dom st N_editorIframe) p /\
       _getStyle (dom (_exitFullscreen E (resize E' documentFs st1)) N_previewerIframe) p
       = _getStyle (dom st N_previewerIframe) p) /\
    _getStyle (dom (_exitFullscreen E (resize E' documentFs st1)) N_element) "z-index"
    = sheet (dom st N_element) "z-index".
Proof.
  destruct (_goFullscreen_spec E st) as (st1 & Hgo & Hflags & _).
  destruct (resize_frame E' documentFs st1) as (Hel & Hsheet).
  exists st1. split; [exact Hgo|]. split.
  { apply resize_outer_frame. rewrite Hflags. reflexivity. }
  apply (exit_restores E st st1 (resize E' documentFs st1) Hgo Hel).
  intros n. rewrite Hsheet. apply (_goFullscreen_sheet E st st1 Hgo).
Qed.

(** ** Unloading *)


(** ** The listeners and the mode flags *)

(** X28: the listeners that [load] installs keep the mode flags in order.
    In a state where [_isInEdit] is set and the flags show one simple mode
    outside fullscreen or both in fullscreen, a key press, a key release
    in the editor with its live previews, and a click on the fullscreen
    button return and keep it so; so does a click on the toggle button
    outside fullscreen, and the end of native fullscreen in fullscreen. *)
Theorem listeners_keep_flags (E : env) (st : state) :
  good st ->
  (forall keyCode, exists st', shortcutHandler E keyCode st = Ok st' /\ good st') /\
  (forall keyCode, exists st', editor_keyup E keyCode st = Ok st' /\ good st') /\
  (exists st', fullscreen_click E st = Ok st' /\ good st') /\
  (Flags.fullscreen (eeState st) = false ->
   exists st', toggle_click E st = Ok st' /\ good st') /\
  (Flags.fullscreen (eeState st) = true ->
   forall isFullScreen, good (fullscreenchange E isFullScreen st)).
Proof.
  intros Hgood. repeat split.
  - intros k. apply shortcutHandler_invariant. exact Hgood.
  - intros k. apply editor_keyup_invariant. exact Hgood.
  - apply fullscreen_click_invariant. exact Hgood.
  - intros Hfs. apply toggle_click_invariant; assumption.
  - apply fullscreenchange_invariant; assumption.
  - apply fullscreenchange_invariant; assumption.
Qed.

Lemma listeners_keep_flags_witness :
  exists st0,
    boot = Ok st0 /\
    (forall keyCode, exists st', shortcutHandler browser keyCode st0 = Ok st' /\ good st') /\
    (forall keyCode, exists st', editor_keyup browser keyCode st0 = Ok st' /\ good st') /\
    (exists st', fullscreen_click browser st0 = Ok st' /\ good st') /\
    (Flags.fullscreen (eeState st0) = false ->
     exists st', toggle_click browser st0 = Ok st' /\ good st') /\
    (Flags.fullscreen (eeState st0) = true ->
     forall isFullScreen, good (fullscreenchange browser isFullScreen st0)).
Proof.
  eexists. split; [vm_compute; reflexivity|].
  apply listeners_keep_flags. split; vm_compute; reflexivity.
Defined.

(** ** A file that is removed *)



(** ** The names that [get] knows *)

(** X30: for a name that no object inherits, [get] gives [null] exactly
    when the name is none of [document], [body], [editor], [previewer]
    and [wrapper]. *)
Theorem get_null_iff (st : state) (name : string) :
  inherited name = false ->
  get st name = JNull <->
  name ∉ ["document"; "body"; "editor"; "previewer"; "wrapper"].
Proof.
  intros Hinh. split.
  - intros Hnull Hin.
    repeat (apply elem_of_cons in Hin as [-> | Hin];
            [vm_compute in Hnull; discriminate|]).
    apply elem_of_nil in Hin. exact Hin.
  - intros Hnot. apply get_unrecognized; assumption.
Qed.

Lemma get_null_iff_witness :
  exists st0,
    boot = Ok st0 /\
    (get st0 "toolbar" = JNull <->
     "toolbar" ∉ ["document"; "body"; "editor"; "previewer"; "wrapper"]).
Proof.
  eexists. split; [vm_compute; reflexivity|].
  apply get_null_iff. vm_compute. reflexivity.
Defined.
